(** * TeamT-Creator: the recurring team-battle creator

    A shallow embedding of [src/perfect-tournament-creator.ts] and the
    properties its specification states about it.

    Conventions of the embedding.
    - A JavaScript [string] is a Rocq [string]; every [ascii] stands for one
      UTF-16 code unit below 256.
    - A JavaScript [number] that holds a counter, an hour or a time value is
      an integer of [Z], exact as long as the number is a safe integer; a
      number that may be [NaN] (what an invalid [Date] hands out) is an
      [option Z] with [None] for [NaN].
    - The [Date] built-in follows ECMAScript: time values in milliseconds,
      clipped at 100,000,000 days around the epoch, with the proleptic
      Gregorian calendar; [toISOString] raises on an invalid date.
    - Exceptions, [process.exit], the disk, the network and the timer are
      explicit: a [Task] maps the state of the outside world to a
      [Completion] and the next state. Each of the two files holds a
      record of its type or cannot be read; writing a file succeeds.
    - Console output is informational only and is not part of the model. *)

From Stdlib Require Import ZArith List String Ascii Bool Lia DecimalString.
From Stdlib Require DecimalZ DecimalPos.
Import ListNotations.

#[local] Open Scope string_scope.
#[local] Open Scope Z_scope.

(* ================================================================== *)
(** * JavaScript strings *)
(* ================================================================== *)

Module JsString.

(** [s.startsWith(pat)] *)
Fixpoint startsWith (pat s : string) : bool :=
  match pat, s with
  | EmptyString, _ => true
  | String a p, String b r => Ascii.eqb a b && startsWith p r
  | String _ _, EmptyString => false
  end.

(** [s.indexOf(pat)], counted from the current position; [None] is -1. *)
Fixpoint indexOf (pat s : string) : option nat :=
  if startsWith pat s then Some O
  else match s with
       | EmptyString => None
       | String _ r => option_map S (indexOf pat r)
       end.

(** [s.includes(pat)] *)
Definition includes (pat s : string) : bool :=
  match indexOf pat s with Some _ => true | None => false end.

Fixpoint take (n : nat) (s : string) : string :=
  match n, s with
  | S k, String c r => String c (take k r)
  | _, _ => EmptyString
  end.

Fixpoint drop (n : nat) (s : string) : string :=
  match n, s with
  | S k, String _ r => drop k r
  | _, _ => s
  end.

(** The replacement text of [String.prototype.replace] for a string
    pattern (ECMAScript GetSubstitution without captures): [$$] is a
    dollar, [$&] the match, [$`] the text before it, [$'] the text after
    it; any other dollar stands for itself. *)
Fixpoint getSubstitution (matched before after template : string) : string :=
  match template with
  | EmptyString => EmptyString
  | String c tl =>
      if Ascii.eqb c "$" then
        match tl with
        | String d rest =>
            if Ascii.eqb d "$" then
              String "$" (getSubstitution matched before after rest)
            else if Ascii.eqb d "&" then
              matched ++ getSubstitution matched before after rest
            else if Ascii.eqb d "`" then
              before ++ getSubstitution matched before after rest
            else if Ascii.eqb d "'" then
              after ++ getSubstitution matched before after rest
            else String c (getSubstitution matched before after tl)
        | EmptyString => String c EmptyString
        end
      else String c (getSubstitution matched before after tl)
  end.

(** [s.replace(pat, rep)] with a string pattern: only the first
    occurrence is replaced. *)
Definition replace (pat rep s : string) : string :=
  match indexOf pat s with
  | None => s
  | Some pos =>
      let before := take pos s in
      let after := drop (pos + String.length pat) s in
      before ++ getSubstitution pat before after rep ++ after
  end.

(** White space and line terminators among the code units below 256. *)
Definition isWhiteSpace (c : ascii) : bool :=
  let n := nat_of_ascii c in
  (Nat.eqb n 9 || Nat.eqb n 10 || Nat.eqb n 11 || Nat.eqb n 12
   || Nat.eqb n 13 || Nat.eqb n 32 || Nat.eqb n 160)%bool.

Fixpoint trimStart (s : string) : string :=
  match s with
  | String c r => if isWhiteSpace c then trimStart r else s
  | EmptyString => EmptyString
  end.

Fixpoint trimEnd (s : string) : string :=
  match s with
  | EmptyString => EmptyString
  | String c r =>
      match trimEnd r with
      | EmptyString => if isWhiteSpace c then EmptyString else String c EmptyString
      | r' => String c r'
      end
  end.

(** [s.trim()] *)
Definition trim (s : string) : string := trimEnd (trimStart s).

Fixpoint forallb (p : ascii -> bool) (s : string) : bool :=
  match s with
  | EmptyString => true
  | String c r => p c && forallb p r
  end.

(** [String(n)] for an integer [n]: its decimal digits, with a leading
    minus sign when negative. *)
Definition ofNumber (n : Z) : string := NilZero.string_of_int (Z.to_int n).

(** [String(n).padStart(width, "0")] for [n >= 0] *)
Definition padZero (width : nat) (n : Z) : string :=
  let digits := ofNumber n in
  String.concat "" (repeat "0" (width - String.length digits)) ++ digits.

(** [arr.join(sep)] *)
Definition join (sep : string) (parts : list string) : string :=
  String.concat sep parts.

(** [s.split(sep)[0]] for a one-character separator: the text before the
    first [sep], or all of [s] when there is none. *)
Fixpoint splitHead (sep : ascii) (s : string) : string :=
  match s with
  | EmptyString => EmptyString
  | String c r => if Ascii.eqb c sep then EmptyString else String c (splitHead sep r)
  end.

End JsString.

(* ================================================================== *)
(** * Completions: values, exceptions and process exit *)
(* ================================================================== *)

(** How a JavaScript computation ends. The text of an exception is what
    [String(error)] gives for it. *)
Inductive Completion (A : Type) : Type :=
| Normal (a : A)
| Thrown (e : string)
| Exited (code : Z).

Arguments Normal {A} a.
Arguments Thrown {A} e.
Arguments Exited {A} code.

(** Sequencing of computations without side effects. *)
Definition andThen {A B : Type} (c : Completion A) (k : A -> Completion B)
  : Completion B :=
  match c with
  | Normal a => k a
  | Thrown e => Thrown e
  | Exited code => Exited code
  end.

(** A number that may be [NaN]. *)
Definition number : Type := option Z.

Definition NaN : number := None.

Definition num_add (a b : number) : number :=
  match a, b with
  | Some x, Some y => Some (x + y)
  | _, _ => NaN
  end.

Definition num_sub (a b : number) : number :=
  match a, b with
  | Some x, Some y => Some (x - y)
  | _, _ => NaN
  end.

(* ================================================================== *)
(** * The [Date] built-in (ECMAScript, section "Date Objects") *)
(* ================================================================== *)

Module JsDate.

Definition msPerSecond : Z := 1000.
Definition msPerMinute : Z := 60000.
Definition msPerHour : Z := 3600000.
Definition msPerDay : Z := 86400000.

(** The largest magnitude of a time value: 100,000,000 days. *)
Definition maxTime : Z := 8640000000000000.

Definition Day (t : Z) : Z := t / msPerDay.
Definition TimeWithinDay (t : Z) : Z := t mod msPerDay.

Definition DaysInYear (y : Z) : Z :=
  if negb (y mod 4 =? 0) then 365
  else if negb (y mod 100 =? 0) then 366
  else if negb (y mod 400 =? 0) then 365
  else 366.

Definition DayFromYear (y : Z) : Z :=
  365 * (y - 1970) + (y - 1969) / 4 - (y - 1901) / 100 + (y - 1601) / 400.

Definition TimeFromYear (y : Z) : Z := msPerDay * DayFromYear y.

(** The largest year [y] with [TimeFromYear y <= t]: the mean length of a
    year gives an estimate that is off by at most one. *)
Definition YearFromTime (t : Z) : Z :=
  let y0 := 1970 + (400 * Day t) / 146097 in
  if TimeFromYear (y0 + 1) <=? t then y0 + 1
  else if TimeFromYear y0 <=? t then y0
  else y0 - 1.

Definition InLeapYear (t : Z) : Z :=
  if DaysInYear (YearFromTime t) =? 366 then 1 else 0.

Definition DayWithinYear (t : Z) : Z := Day t - DayFromYear (YearFromTime t).

(** The day of the year on which month [m] (0 = January) starts. *)
Definition monthStart (leap m : Z) : Z :=
  if m =? 0 then 0
  else if m =? 1 then 31
  else if m =? 2 then 59 + leap
  else if m =? 3 then 90 + leap
  else if m =? 4 then 120 + leap
  else if m =? 5 then 151 + leap
  else if m =? 6 then 181 + leap
  else if m =? 7 then 212 + leap
  else if m =? 8 then 243 + leap
  else if m =? 9 then 273 + leap
  else if m =? 10 then 304 + leap
  else 334 + leap.

Definition MonthFromTime (t : Z) : Z :=
  let d := DayWithinYear t in
  let leap := InLeapYear t in
  if d <? 31 then 0
  else if d <? 59 + leap then 1
  else if d <? 90 + leap then 2
  else if d <? 120 + leap then 3
  else if d <? 151 + leap then 4
  else if d <? 181 + leap then 5
  else if d <? 212 + leap then 6
  else if d <? 243 + leap then 7
  else if d <? 273 + leap then 8
  else if d <? 304 + leap then 9
  else if d <? 334 + leap then 10
  else 11.

Definition DateFromTime (t : Z) : Z :=
  DayWithinYear t - monthStart (InLeapYear t) (MonthFromTime t) + 1.

Definition HourFromTime (t : Z) : Z := (t / msPerHour) mod 24.
Definition MinFromTime (t : Z) : Z := (t / msPerMinute) mod 60.
Definition SecFromTime (t : Z) : Z := (t / msPerSecond) mod 60.
Definition msFromTime (t : Z) : Z := t mod msPerSecond.

Definition MakeTime (hour min sec ms : Z) : Z :=
  hour * msPerHour + min * msPerMinute + sec * msPerSecond + ms.

(** The day number of the first of month [month mod 12] of year
    [year + month / 12], moved by [date - 1] days. *)
Definition MakeDay (year month date : Z) : Z :=
  let ym := year + month / 12 in
  let mn := month mod 12 in
  let leap := if DaysInYear ym =? 366 then 1 else 0 in
  DayFromYear ym + monthStart leap mn + date - 1.

Definition MakeDate (day time : Z) : Z := day * msPerDay + time.

Definition TimeClip (t : Z) : number :=
  if Z.abs t <=? maxTime then Some t else NaN.

(** Two-digit years mean the twentieth century. *)
Definition MakeFullYear (y : Z) : Z :=
  if (0 <=? y) && (y <=? 99) then 1900 + y else y.

(** A [Date] object holds a time value or [NaN]. *)
Definition Date : Type := number.

(** [new Date(value)] for a number [value] *)
Definition newDate (value : number) : Date :=
  match value with
  | Some tv => TimeClip tv
  | None => NaN
  end.

(** [new Date(d)] for a [Date] object [d] *)
Definition copy (d : Date) : Date := d.

Definition getUTCFullYear (d : Date) : number := option_map YearFromTime d.
Definition getUTCMonth (d : Date) : number := option_map MonthFromTime d.
Definition getUTCDate (d : Date) : number := option_map DateFromTime d.

(** [d.setUTCDate(dt)]: the date after the assignment. *)
Definition setUTCDate (d : Date) (dt : number) : Date :=
  match d, dt with
  | Some t, Some dt =>
      TimeClip (MakeDate (MakeDay (YearFromTime t) (MonthFromTime t) dt)
                         (TimeWithinDay t))
  | _, _ => NaN
  end.

(** [Date.UTC(year, month, date, hours, minutes, seconds, ms)] *)
Definition UTC (year month date hours minutes seconds ms : number) : number :=
  match year, month, date, hours, minutes, seconds, ms with
  | Some y, Some m, Some dt, Some h, Some mi, Some s, Some milli =>
      TimeClip (MakeDate (MakeDay (MakeFullYear y) m dt) (MakeTime h mi s milli))
  | _, _, _, _, _, _, _ => NaN
  end.

Definition yearString (y : Z) : string :=
  if (0 <=? y) && (y <=? 9999) then JsString.padZero 4 y
  else if y <? 0 then "-" ++ JsString.padZero 6 (- y)
  else "+" ++ JsString.padZero 6 y.

(** [d.toISOString()]; an invalid date raises a [RangeError]. *)
Definition toISOString (d : Date) : Completion string :=
  match d with
  | None => Thrown "RangeError: Invalid time value"
  | Some t =>
      Normal (yearString (YearFromTime t)
              ++ "-" ++ JsString.padZero 2 (MonthFromTime t + 1)
              ++ "-" ++ JsString.padZero 2 (DateFromTime t)
              ++ "T" ++ JsString.padZero 2 (HourFromTime t)
              ++ ":" ++ JsString.padZero 2 (MinFromTime t)
              ++ ":" ++ JsString.padZero 2 (SecFromTime t)
              ++ "." ++ JsString.padZero 3 (msFromTime t)
              ++ "Z")
  end.

End JsDate.

(* ================================================================== *)
(** * Data model *)
(* ================================================================== *)

Record TournamentSettings : Type := {
  hostTeamId : string;
  description : string;
  lastTournamentDayNum : Z;
  leadersPerTeam : Z;
  dayStartHour : Z;
  nightStartHour : Z;
  tournamentDurationMinutes : Z;
  clockTimeMinutes : Z;
  clockIncrementSeconds : Z;
  rated : bool;
  variant : string
}.

Record TournamentState : Type := {
  lastCreationDate : string
}.

(** The type ['Day' | 'Night'] and the string each value is. *)
Inductive TournamentType : Type := Day | Night.

Definition typeLabel (type : TournamentType) : string :=
  match type with
  | Day => "Day"
  | Night => "Night"
  end.

(** The objects pushed on [tournaments] in [main]. *)
Record Tournament : Type := {
  tournament_name : string;
  tournament_description : string;
  tournament_startDateISO : string;
  tournament_dayNum : Z;
  tournament_type : TournamentType
}.

(** The argument of [createTeamBattle]; an absent [dryRun] is [false]. *)
Record Params : Type := {
  params_server : string;
  params_token : string;
  params_name : string;
  params_description : string;
  params_clockTime : Z;
  params_clockIncrement : Z;
  params_minutes : Z;
  params_rated : bool;
  params_variant : string;
  params_startDateISO : string;
  params_hostTeamId : string;
  params_teams : list string;
  params_dryRun : bool
}.

(** What [createTeamBattle] resolves to: [{ ok, url?, error? }]. *)
Record SubmissionResult : Type := {
  result_ok : bool;
  result_url : option string;
  result_error : option string
}.

(* ================================================================== *)
(** * The outside world: network, disk, timer, environment *)
(* ================================================================== *)

(** A parsed JSON text. *)
#[warnings="-register-all"]
Inductive Json : Type :=
| JNull
| JBool (b : bool)
| JNumber (n : Z)
| JString (s : string)
| JArray (items : list Json)
| JObject (fields : list (string * Json)).

Module JsValue.

(** [obj[key]] on the fields of an object; a later duplicate wins. *)
Fixpoint lookup (key : string) (fields : list (string * Json)) : option Json :=
  match fields with
  | [] => None
  | (k, v) :: rest =>
      match lookup key rest with
      | Some later => Some later
      | None => if String.eqb k key then Some v else None
      end
  end.

(** [data?.id]; [None] is [undefined]. *)
Definition id (data : Json) : option Json :=
  match data with
  | JObject fields => lookup "id" fields
  | _ => None
  end.

(** Truthiness of a value. *)
Definition truthy (v : Json) : bool :=
  match v with
  | JNull => false
  | JBool b => b
  | JNumber n => negb (n =? 0)
  | JString s => negb (String.eqb s "")
  | JArray _ | JObject _ => true
  end.

(** The text a value contributes to a template literal. *)
Fixpoint toString (v : Json) : string :=
  match v with
  | JNull => "null"
  | JBool b => if b then "true" else "false"
  | JNumber n => JsString.ofNumber n
  | JString s => s
  | JArray items =>
      JsString.join ","
        (map (fun item => match item with
                          | JNull => ""
                          | _ => toString item
                          end) items)
  | JObject _ => "[object Object]"
  end.

End JsValue.

(** The request [fetch] is called with. The body is the list of pairs of a
    [URLSearchParams], in the order of insertion. *)
Record Request : Type := {
  req_url : string;
  req_method : string;
  req_headers : list (string * string);
  req_body : list (string * string)
}.

(** How a promise settles. The text of a rejection is what
    [String(error)] gives for its reason. *)
Inductive Settled (A : Type) : Type :=
| Resolved (value : A)
| Rejected (error : string).

Arguments Resolved {A} value.
Arguments Rejected {A} error.

(** A response as [createTeamBattle] looks at it: [res.ok], [res.status],
    what [res.text()] and [res.json()] settle to, and the [Location]
    header ([None] when absent). *)
Record Response : Type := {
  res_ok : bool;
  res_status : Z;
  res_text : Settled string;
  res_json : Settled Json;
  res_location : option string
}.

(** Typed paths of the two files of the program. A file that is present
    and well formed holds a record of its type. *)
Inductive Path : Type -> Type :=
| settingsPath : Path TournamentSettings
| statePath : Path TournamentState.

Definition pathName {T : Type} (path : Path T) : string :=
  match path with
  | settingsPath => "config/tournament-settings.json"
  | statePath => "config/perfect-tournament.state.json"
  end.

(** What a run does to the outside, in the order it does it. *)
Inductive Event : Type :=
| Fetched (req : Request)
| Slept (ms : Z)
| WroteSettings (data : TournamentSettings)
| WroteState (data : TournamentState).

(** The mutable part of the world. A file is [None] when reading it
    fails: it is missing, unreadable or not JSON. *)
Record World : Type := {
  settingsFile : option TournamentSettings;
  stateFile : option TournamentState;
  journal : list Event
}.

(** The part of the world a run only reads. The network answers a request
    knowing everything the run did before it. *)
Record Environment : Type := {
  OAUTH_TOKEN : option string;
  DRY_RUN : option string;
  clock : Z;
  network : list Event -> Request -> Settled Response
}.

Definition record (e : Event) (w : World) : World :=
  {| settingsFile := settingsFile w;
     stateFile := stateFile w;
     journal := journal w ++ [e] |}.

(** An effectful computation. *)
Definition Task (A : Type) : Type := World -> Completion A * World.

Definition ret {A : Type} (a : A) : Task A := fun w => (Normal a, w).

Definition bind {A B : Type} (c : Task A) (k : A -> Task B) : Task B :=
  fun w =>
    match c w with
    | (Normal a, w') => k a w'
    | (Thrown e, w') => (Thrown e, w')
    | (Exited code, w') => (Exited code, w')
    end.

(** [throw new Error(message)] *)
Definition throwError {A : Type} (message : string) : Task A :=
  fun w => (Thrown ("Error: " ++ message), w).

(** [process.exit(code)] *)
Definition process_exit {A : Type} (code : Z) : Task A :=
  fun w => (Exited code, w).

(** [try { body } catch (error) { handler }] *)
Definition tryCatch {A : Type} (body : Task A) (handler : string -> Task A)
  : Task A :=
  fun w =>
    match body w with
    | (Thrown e, w') => handler e w'
    | other => other
    end.

(** A computation without side effects, run as a task. *)
Definition lift {A : Type} (c : Completion A) : Task A := fun w => (c, w).

Declare Scope task_scope.
Delimit Scope task_scope with task.
Notation "x <- c ;; k" := (bind c (fun x => k))
  (at level 61, c at next level, right associativity) : task_scope.
Notation "c ;; k" := (bind c (fun _ => k))
  (at level 61, right associativity) : task_scope.
#[local] Open Scope task_scope.

(** [await p] for a promise that settles as [p] says. *)
Definition await {A : Type} (p : Settled A) : Task A :=
  fun w =>
    match p with
    | Resolved value => (Normal value, w)
    | Rejected error => (Thrown error, w)
    end.

(** [await new Promise(resolve => setTimeout(resolve, ms))] *)
Definition sleep (ms : Z) : Task unit :=
  fun w => (Normal tt, record (Slept ms) w).

(* ================================================================== *)
(** * The program *)
(* ================================================================== *)

Definition createTournamentDate (year month day hour minute : number)
  : Completion string :=
  let date :=
    JsDate.newDate (JsDate.UTC year (num_sub month (Some 1)) day hour minute
                                    (Some 0) (Some 0)) in
  JsDate.toISOString date.

Definition buildTournamentName (dayNum : Z) (type : TournamentType) : string :=
  "LMAO " ++ typeLabel type ++ " '" ++ JsString.ofNumber dayNum ++ "'".

Definition buildDescription (dayNum : Z) (type : TournamentType)
  (template : string) : string :=
  JsString.replace "{DAY_NUM}" (JsString.ofNumber dayNum)
    (JsString.replace "{TYPE}" (typeLabel type) template).

(** The character class of [/^[a-zA-Z0-9_-]+$/]. *)
Definition tokenChar (c : ascii) : bool :=
  let n := nat_of_ascii c in
  ((Nat.leb 97 n && Nat.leb n 122)       (* a-z *)
   || (Nat.leb 65 n && Nat.leb n 90)     (* A-Z *)
   || (Nat.leb 48 n && Nat.leb n 57)     (* 0-9 *)
   || Nat.eqb n 95                       (* _ *)
   || Nat.eqb n 45)%bool.                (* - *)

(** [tokenRegex.test(token)]: one or more characters of the class, from
    the start of the input to its end. *)
Definition tokenRegex_test (token : string) : bool :=
  negb (String.eqb token "") && JsString.forallb tokenChar token.

Definition validateOAuthToken (token : string) : bool :=
  if String.eqb token "" || String.eqb (JsString.trim token) "" then false
  else if JsString.includes "***" token
          || JsString.includes "YOUR_TOKEN" token
          || JsString.includes "PLACEHOLDER" token then false
  else tokenRegex_test token && (10 <? Z.of_nat (String.length token)).

(** [arr.push(x)]: the array after the call. *)
Definition push {A : Type} (arr : list A) (x : A) : list A := arr ++ [x].

(** The pairs of the request body, in the order [createTeamBattle] adds
    them: the eight of the constructor, the host, one per invited team. *)
Definition invitedTeams (params : Params) : list string :=
  filter (fun t => negb (String.eqb t "")
                   && negb (String.eqb t (params_hostTeamId params)))
         (params_teams params).

Definition requestBody (params : Params) : list (string * string) :=
  [ ("name", params_name params);
    ("description", params_description params);
    ("clockTime", JsString.ofNumber (params_clockTime params));
    ("clockIncrement", JsString.ofNumber (params_clockIncrement params));
    ("minutes", JsString.ofNumber (params_minutes params));
    ("rated", if params_rated params then "true" else "false");
    ("variant", params_variant params);
    ("startDate", params_startDateISO params) ]
  ++ [ ("teamBattleByTeam", params_hostTeamId params) ]
  ++ map (fun t => ("teams[]", t)) (invitedTeams params).

(** The call [fetch(apiUrl, { method, headers, body })] of
    [createTeamBattle]. *)
Definition tournamentRequest (params : Params) (body : list (string * string))
  : Request :=
  let apiUrl := params_server params ++ "/api/tournament" in
  {| req_url := apiUrl;
     req_method := "POST";
     req_headers :=
       [ ("Authorization", "Bearer " ++ params_token params);
         ("Content-Type", "application/x-www-form-urlencoded");
         ("Accept", "application/json");
         ("User-Agent", "LMAO-Teamfights-Creator/1.0") ];
     req_body := body |}.

(** The request of a submission. *)
Definition requestOf (params : Params) : Request :=
  tournamentRequest params (requestBody params).

(** The result for a credential that fails validation. *)
Definition invalidTokenResult : SubmissionResult :=
  {| result_ok := false;
     result_url := None;
     result_error := Some "Invalid or missing OAuth token. Please set a valid OAUTH_TOKEN environment variable." |}.

(** The result of a dry run: the page of the host team's pending
    tournaments. *)
Definition pendingResult (params : Params) : SubmissionResult :=
  {| result_ok := true;
     result_url := Some (params_server params ++ "/team/"
                         ++ params_hostTeamId params ++ "/arena/pending");
     result_error := None |}.

(** The object [main] hands to [createTeamBattle] for one tournament. *)
Definition submissionParams (oauthToken : string) (settings : TournamentSettings)
  (dryRun : bool) (tournament : Tournament) : Params :=
  {| params_server := "https://lichess.org";
     params_token := oauthToken;
     params_name := tournament_name tournament;
     params_description := tournament_description tournament;
     params_clockTime := clockTimeMinutes settings;
     params_clockIncrement := clockIncrementSeconds settings;
     params_minutes := tournamentDurationMinutes settings;
     params_rated := rated settings;
     params_variant := variant settings;
     params_startDateISO := tournament_startDateISO tournament;
     params_hostTeamId := hostTeamId settings;
     params_teams := [hostTeamId settings];
     params_dryRun := dryRun |}.

Section Program.

Variable env : Environment.

(** [readJSON<T>(path)] *)
Definition readJSON {T : Type} (path : Path T) : Task T :=
  fun w =>
    let file : option T :=
      match path in Path T return option T with
      | settingsPath => settingsFile w
      | statePath => stateFile w
      end in
    match file with
    | Some data => (Normal data, w)
    | None => (Thrown ("Error: cannot read " ++ pathName path), w)
    end.

(** [writeJSON<T>(path, data)] *)
Definition writeJSON {T : Type} (path : Path T) : T -> Task unit :=
  match path in Path T return T -> Task unit with
  | settingsPath => fun data w =>
      (Normal tt,
       {| settingsFile := Some data;
          stateFile := stateFile w;
          journal := journal w ++ [WroteSettings data] |})
  | statePath => fun data w =>
      (Normal tt,
       {| settingsFile := settingsFile w;
          stateFile := Some data;
          journal := journal w ++ [WroteState data] |})
  end.

(** [await fetch(url, { method, headers, body })] *)
Definition fetch (req : Request) : Task Response :=
  fun w =>
    await (network env (journal w) req) (record (Fetched req) w).

Definition createTeamBattle (params : Params) : Task SubmissionResult :=
  if negb (validateOAuthToken (params_token params)) then
    ret invalidTokenResult
  else
    let body := requestBody params in
    if params_dryRun params then
      ret (pendingResult params)
    else
      tryCatch
        (res <- fetch (tournamentRequest params body) ;;
         if negb (res_ok res) then
           errorText <- await (res_text res) ;;
           ret {| result_ok := false;
                  result_url := None;
                  result_error := Some (JsString.ofNumber (res_status res)
                                        ++ ": " ++ errorText) |}
         else
           data <- await (res_json res) ;;
           let fallback :=
             match res_location res with
             | Some location =>
                 if String.eqb location "" then "unknown" else location
             | None => "unknown"
             end in
           let url :=
             match JsValue.id data with
             | Some id =>
                 if JsValue.truthy id then
                   params_server params ++ "/tournament/" ++ JsValue.toString id
                 else fallback
             | None => fallback
             end in
           ret {| result_ok := true; result_url := Some url; result_error := None |})
        (fun error =>
           ret {| result_ok := false; result_url := None; result_error := Some error |}).

(** The body of the first loop of [main] for the days [offsets]; [acc] is
    the array [tournaments] so far. *)
Fixpoint scheduleLoop (now : JsDate.Date) (nextDayNum : Z)
  (settings : TournamentSettings) (offsets : list Z) (acc : list Tournament)
  : Completion (list Tournament) :=
  match offsets with
  | [] => Normal acc
  | dayOffset :: rest =>
      let tournamentDayNum := nextDayNum + dayOffset in
      let targetDate :=
        JsDate.setUTCDate (JsDate.copy now)
          (num_add (JsDate.getUTCDate (JsDate.copy now)) (Some dayOffset)) in
      let year := JsDate.getUTCFullYear targetDate in
      let month := num_add (JsDate.getUTCMonth targetDate) (Some 1) in
      let day := JsDate.getUTCDate targetDate in
      andThen
        (createTournamentDate year month day (Some (dayStartHour settings)) (Some 0))
        (fun dayStart =>
      let acc1 := push acc
          {| tournament_name := buildTournamentName tournamentDayNum Day;
             tournament_description :=
               buildDescription tournamentDayNum Day (description settings);
             tournament_startDateISO := dayStart;
             tournament_dayNum := tournamentDayNum;
             tournament_type := Day |} in
      andThen
        (createTournamentDate year month day (Some (nightStartHour settings)) (Some 0))
        (fun nightStart =>
      let acc2 := push acc1
          {| tournament_name := buildTournamentName tournamentDayNum Night;
             tournament_description :=
               buildDescription tournamentDayNum Night (description settings);
             tournament_startDateISO := nightStart;
             tournament_dayNum := tournamentDayNum;
             tournament_type := Night |} in
      scheduleLoop now nextDayNum settings rest acc2))
  end.

(** [for (let dayOffset = 0; dayOffset < 7; dayOffset++)] *)
Definition dayOffsets : list Z := [0; 1; 2; 3; 4; 5; 6].

Definition buildTournaments (now : JsDate.Date) (nextDayNum : Z)
  (settings : TournamentSettings) : Completion (list Tournament) :=
  scheduleLoop now nextDayNum settings dayOffsets [].

(** The second loop of [main] from index [i] on, over the tournaments
    [tournaments[i..]]; it hands back the two counters. *)
Fixpoint submitLoop (oauthToken : string) (settings : TournamentSettings)
  (dryRun : bool) (i : Z) (remaining : list Tournament)
  (successCount failureCount : Z) : Task (Z * Z) :=
  match remaining with
  | [] => ret (successCount, failureCount)
  | tournament :: rest =>
      (if 0 <? i then sleep 10000 else ret tt) ;;
      result <- createTeamBattle
                  (submissionParams oauthToken settings dryRun tournament) ;;
      if result_ok result then
        submitLoop oauthToken settings dryRun (i + 1) rest
                   (successCount + 1) failureCount
      else
        submitLoop oauthToken settings dryRun (i + 1) rest
                   successCount (failureCount + 1)
  end.

(** [Math.max(...xs)]; [None] is [-Infinity], the maximum of no number. *)
Definition Math_max (xs : list Z) : option Z :=
  match xs with
  | [] => None
  | x :: rest => Some (fold_left Z.max rest x)
  end.

Definition setLastTournamentDayNum (settings : TournamentSettings) (n : Z)
  : TournamentSettings :=
  {| hostTeamId := hostTeamId settings;
     description := description settings;
     lastTournamentDayNum := n;
     leadersPerTeam := leadersPerTeam settings;
     dayStartHour := dayStartHour settings;
     nightStartHour := nightStartHour settings;
     tournamentDurationMinutes := tournamentDurationMinutes settings;
     clockTimeMinutes := clockTimeMinutes settings;
     clockIncrementSeconds := clockIncrementSeconds settings;
     rated := rated settings;
     variant := variant settings |}.

(** The block under [// Update state]. A maximum of [-Infinity] needs an
    empty [tournaments], for which no success is counted. *)
Definition updateState (settings : TournamentSettings) (today : string)
  (tournaments : list Tournament) (successCount : Z) : Task unit :=
  if 0 <? successCount then
    match Math_max (map tournament_dayNum tournaments) with
    | Some maxDayNum =>
        writeJSON settingsPath (setLastTournamentDayNum settings maxDayNum) ;;
        writeJSON statePath {| lastCreationDate := today |}
    | None => ret tt
    end
  else ret tt.

(** [process.env.DRY_RUN === '1' || process.env.DRY_RUN === 'true'] *)
Definition dryRun : bool :=
  match DRY_RUN env with
  | Some v => String.eqb v "1" || String.eqb v "true"
  | None => false
  end.

(** The block under [// Load or initialize state]. *)
Definition loadState : Task TournamentState :=
  tryCatch (readJSON statePath)
           (fun error => ret {| lastCreationDate := "" |}).

(** [new Date()], when the clock of the machine shows [clock env]. *)
Definition now : JsDate.Date := JsDate.newDate (Some (clock env)).

Definition main : Task unit :=
  tryCatch
    (oauthToken <-
       match OAUTH_TOKEN env with
       | Some token =>
           if String.eqb token "" then
             throwError "OAUTH_TOKEN environment variable is required"
           else ret token
       | None => throwError "OAUTH_TOKEN environment variable is required"
       end ;;
     settings <- readJSON settingsPath ;;
     state <- loadState ;;
     nowISO <- lift (JsDate.toISOString now) ;;
     let today := JsString.splitHead "T" nowISO in
     if String.eqb (lastCreationDate state) today then ret tt
     else
       let nextDayNum := lastTournamentDayNum settings + 1 in
       tournaments <- lift (buildTournaments now nextDayNum settings) ;;
       counts <- submitLoop oauthToken settings dryRun 0 tournaments 0 0 ;;
       let successCount := fst counts in
       let failureCount := snd counts in
       updateState settings today tournaments successCount ;;
       if 0 <? failureCount then process_exit 1 else ret tt)
    (fun error => process_exit 1).

End Program.

(** The exit code of the process for a completion of [main()]: the
    [.catch] of the last lines turns a rejection into exit code 1. *)
Definition exitCode (c : Completion unit) : Z :=
  match c with
  | Normal _ => 0
  | Thrown _ => 1
  | Exited code => code
  end.

(** One run of the script: the exit code and the world it leaves. *)
Definition run (env : Environment) (w : World) : Z * World :=
  let (c, w') := main env w in (exitCode c, w').

(* ================================================================== *)
(** * Vocabulary of the specification *)
(* ================================================================== *)

(** A letter or a digit. *)
Definition isAlphanumeric (c : ascii) : bool :=
  let n := nat_of_ascii c in
  ((Nat.leb 97 n && Nat.leb n 122) || (Nat.leb 65 n && Nat.leb n 90)
   || (Nat.leb 48 n && Nat.leb n 57))%bool.

(** [s] has [part] somewhere inside. *)
Definition contains (part s : string) : Prop :=
  exists pre post, s = pre ++ part ++ post.

(** A single first-occurrence replace, as section 4.2 words it: going
    through [s] from the left, the first place where [pat] starts takes
    [rep] instead and the text after it stays as it is. *)
Fixpoint replaceFirstOccurrence (pat rep s : string) : string :=
  if JsString.startsWith pat s then rep ++ JsString.drop (String.length pat) s
  else match s with
       | EmptyString => EmptyString
       | String c r => String c (replaceFirstOccurrence pat rep r)
       end.

(** [t] is a time value: a number of milliseconds a [Date] can hold. *)
Definition validTime (t : Z) : Prop :=
  - JsDate.maxTime <= t <= JsDate.maxTime.

(** The UTC date of the instant [t], written YYYY-MM-DD. *)
Definition currentUTCDate (t : Z) : string :=
  JsDate.yearString (JsDate.YearFromTime t)
  ++ "-" ++ JsString.padZero 2 (JsDate.MonthFromTime t + 1)
  ++ "-" ++ JsString.padZero 2 (JsDate.DateFromTime t).

(** [n] is a safe integer: a JavaScript number holds it, and its
    neighbours, exactly. *)
Definition safeInteger (n : Z) : Prop :=
  - (2 ^ 53 - 1) <= n <= 2 ^ 53 - 1.

(** The hours of the settings are hours of a day. *)
Definition validHours (settings : TournamentSettings) : Prop :=
  0 <= dayStartHour settings <= 23 /\ 0 <= nightStartHour settings <= 23.

(** What a schedule is about: the number and the type of each entry. *)
Definition slot (t : Tournament) : Z * TournamentType :=
  (tournament_dayNum t, tournament_type t).

(** The state a run works with: the one on disk, or the default. *)
Definition stateOf (w : World) : TournamentState :=
  match stateFile w with
  | Some state => state
  | None => {| lastCreationDate := "" |}
  end.

(** The two files of [w'] are those of [w]. *)
Definition sameFiles (w w' : World) : Prop :=
  settingsFile w' = settingsFile w /\ stateFile w' = stateFile w.

(** [n] pauses of ten seconds, and nothing else, happen after [w]. *)
Definition afterPauses (n : nat) (w : World) : World :=
  {| settingsFile := settingsFile w;
     stateFile := stateFile w;
     journal := journal w ++ repeat (Slept 10000) n |}.

(** The [teams[]] entries of a request body. *)
Definition teamsEntries (body : list (string * string)) : list (string * string) :=
  filter (fun kv => String.eqb (fst kv) "teams[]") body.

(** A request without a [teams[]] entry invites no team; other events
    invite nobody anyway. *)
Definition invitesNobody (e : Event) : Prop :=
  match e with
  | Fetched req => teamsEntries (req_body req) = []
  | _ => True
  end.

(** An event that writes one of the two files. *)
Definition isWrite (e : Event) : bool :=
  match e with
  | WroteSettings _ | WroteState _ => true
  | _ => false
  end.

(** An event that calls the network. *)
Definition isFetch (e : Event) : bool :=
  match e with
  | Fetched _ => true
  | _ => false
  end.

(** What the submission loop may do: pause, and send requests that
    invite nobody; it writes no file. *)
Definition loopEvent (e : Event) : Prop :=
  invitesNobody e /\ isWrite e = false.

(** Initialisation succeeds: the credential is there and the settings
    can be read. *)
Definition initialized (env : Environment) (w : World) (token : string)
  (settings : TournamentSettings) : Prop :=
  OAUTH_TOKEN env = Some token /\ token <> "" /\ settingsFile w = Some settings.

(** The idempotence guard lets the run go on. *)
Definition guardOpen (env : Environment) (w : World) : Prop :=
  lastCreationDate (stateOf w) <> currentUTCDate (clock env).

(** The pauses of the submission loop from index [i] on over [n]
    tournaments: one before each but the very first. *)
Definition pausesFrom (i : Z) (n : nat) : nat :=
  if 0 <? i then n else pred n.

(** Every request finds the server creating the tournament. *)
Definition serverAccepts (env : Environment) : Prop :=
  forall history req, exists res data,
    network env history req = Resolved res
    /\ res_ok res = true /\ res_json res = Resolved data.

(** [tournaments[0]], of a schedule that is not empty. *)
Definition hd_tournament (tournaments : list Tournament) : Tournament :=
  hd {| tournament_name := ""; tournament_description := "";
        tournament_startDateISO := ""; tournament_dayNum := 0;
        tournament_type := Day |} tournaments.

(** The entries a schedule of the days [offsets] from [nextDayNum] on
    adds: a Day and then a Night entry per day. *)
Definition slotsOf (nextDayNum : Z) (offsets : list Z) : list (Z * TournamentType) :=
  flat_map (fun dayOffset => [(nextDayNum + dayOffset, Day);
                              (nextDayNum + dayOffset, Night)]) offsets.

(** A character other than the dollar, the one character a replacement
    text treats specially. *)
Definition plain (c : ascii) : bool := negb (Ascii.eqb c "$").

(** A character other than the [T] that parts date and time. *)
Definition notT (c : ascii) : bool := negb (Ascii.eqb c "T").

(* ================================================================== *)
(** * Sample worlds *)
(* ================================================================== *)

Definition sampleSettings : TournamentSettings :=
  {| hostTeamId := "lmao-teamfights";
     description := "Battle {TYPE} #{DAY_NUM}";
     lastTournamentDayNum := 4;
     leadersPerTeam := 20;
     dayStartHour := 10;
     nightStartHour := 22;
     tournamentDurationMinutes := 90;
     clockTimeMinutes := 3;
     clockIncrementSeconds := 0;
     rated := true;
     variant := "standard" |}.

(** 2024-02-27T15:30:00.123Z *)
Definition sampleClock : Z := 1709047800123.

(** A disk with the settings and no state file yet. *)
Definition freshWorld : World :=
  {| settingsFile := Some sampleSettings; stateFile := None; journal := [] |}.

(** A disk on which today's run is already noted. *)
Definition doneWorld : World :=
  {| settingsFile := Some sampleSettings;
     stateFile := Some {| lastCreationDate := "2024-02-27" |};
     journal := [] |}.

Definition created : Response :=
  {| res_ok := true;
     res_status := 200;
     res_text := Resolved "{}";
     res_json := Resolved (JObject [("id", JString "AbCd1234")]);
     res_location := None |}.

Definition tooManyRequests : Response :=
  {| res_ok := false;
     res_status := 429;
     res_text := Resolved "Too many requests";
     res_json := Rejected "SyntaxError: Unexpected token T in JSON at position 0";
     res_location := None |}.

Definition sampleEnv (token : option string) (dry : option string)
  (net : list Event -> Request -> Settled Response) : Environment :=
  {| OAUTH_TOKEN := token; DRY_RUN := dry; clock := sampleClock; network := net |}.

Definition offline : list Event -> Request -> Settled Response :=
  fun _ _ => Rejected "FetchError: request to https://lichess.org/api/tournament failed".

Definition accepting : list Event -> Request -> Settled Response :=
  fun _ _ => Resolved created.

(** A server that creates ten tournaments and then refuses. *)
Definition tenThenRefusing : list Event -> Request -> Settled Response :=
  fun history _ =>
    if Nat.ltb (List.length (filter isFetch history)) 10
    then Resolved created else Resolved tooManyRequests.

Definition goodToken : string := "abcdefghij0123456789".

(** A real run against a server that accepts everything. *)
Definition acceptingEnv : Environment := sampleEnv (Some goodToken) None accepting.

(** A real run against the server that refuses after ten tournaments. *)
Definition refusingEnv : Environment :=
  sampleEnv (Some goodToken) None tenThenRefusing.

(** A real run without a network. *)
Definition offlineEnv : Environment := sampleEnv (Some goodToken) None offline.

(** A run without the credential. *)
Definition noTokenEnv : Environment := sampleEnv None None accepting.

(** A dry run with a credential that passes validation. *)
Definition dryRunEnv : Environment :=
  sampleEnv (Some goodToken) (Some "true") offline.

(** A dry run with the placeholder credential ["dummy"]. *)
Definition dummyDryRunEnv : Environment :=
  sampleEnv (Some "dummy") (Some "1") offline.

(** The schedule of the sample week. *)
Definition sampleTournaments : list Tournament :=
  Eval vm_compute in
    match buildTournaments (JsDate.newDate (Some sampleClock)) 5 sampleSettings with
    | Normal tournaments => tournaments
    | _ => []
    end.

(** The first tournament of the sample week, as a dry run with the
    placeholder credential ["dummy"] would submit it. *)
Definition dummyParams : Params :=
  {| params_server := "https://lichess.org";
     params_token := "dummy";
     params_name := "LMAO Day '5'";
     params_description := "Battle Day #5";
     params_clockTime := 3;
     params_clockIncrement := 0;
     params_minutes := 90;
     params_rated := true;
     params_variant := "standard";
     params_startDateISO := "2024-02-27T10:00:00.000Z";
     params_hostTeamId := "lmao-teamfights";
     params_teams := ["lmao-teamfights"];
     params_dryRun := true |}.

(** The first submission of a real run of the sample week. *)
Definition firstParams : Params :=
  submissionParams goodToken sampleSettings false (hd_tournament sampleTournaments).

(* ================================================================== *)
(** * Vocabulary of the further properties *)
(* ================================================================== *)

(** The hour at which the tournaments of a type start. *)
Definition startHour (settings : TournamentSettings) (type : TournamentType) : Z :=
  match type with
  | Day => dayStartHour settings
  | Night => nightStartHour settings
  end.

(** The entry of type [type] for the day [dayOffset] days after the
    instant [t], in a schedule numbered from [nextDayNum]. *)
Definition scheduledTournament (t nextDayNum : Z) (settings : TournamentSettings)
  (dayOffset : Z) (type : TournamentType) : Tournament :=
  {| tournament_name :=
       "LMAO " ++ typeLabel type ++ " '"
       ++ JsString.ofNumber (nextDayNum + dayOffset) ++ "'";
     tournament_description :=
       replaceFirstOccurrence "{DAY_NUM}" (JsString.ofNumber (nextDayNum + dayOffset))
         (replaceFirstOccurrence "{TYPE}" (typeLabel type) (description settings));
     tournament_startDateISO :=
       currentUTCDate (t + dayOffset * JsDate.msPerDay)
       ++ "T" ++ JsString.padZero 2 (startHour settings type) ++ ":00:00.000Z";
     tournament_dayNum := nextDayNum + dayOffset;
     tournament_type := type |}.

Definition scheduledDays (t nextDayNum : Z) (settings : TournamentSettings)
  (offsets : list Z) : list Tournament :=
  flat_map (fun dayOffset =>
              [ scheduledTournament t nextDayNum settings dayOffset Day;
                scheduledTournament t nextDayNum settings dayOffset Night ])
           offsets.

(** An entry is named and described as the formatters say for its number
    and type. *)
Definition formatted (settings : TournamentSettings) (t : Tournament) : Prop :=
  tournament_name t = buildTournamentName (tournament_dayNum t) (tournament_type t)
  /\ tournament_description t
     = buildDescription (tournament_dayNum t) (tournament_type t)
                        (description settings).

(** A text without an opening brace: no placeholder starts in it. *)
Definition braceFree (s : string) : Prop :=
  JsString.forallb (fun c => negb (Ascii.eqb c "{")) s = true.

(** Requests sent one after the other with a pause of ten seconds before
    each but (when [first] holds) the first. *)
Fixpoint paced (first : bool) (requests : list Request) : list Event :=
  match requests with
  | [] => []
  | req :: rest =>
      (if first then [] else [Slept 10000]) ++ Fetched req :: paced false rest
  end.

(** The settings [settings] with the counter at [n]; every other field
    is as it was. *)
Definition withCounter (settings : TournamentSettings) (n : Z)
  : TournamentSettings :=
  {| hostTeamId := hostTeamId settings;
     description := description settings;
     lastTournamentDayNum := n;
     leadersPerTeam := leadersPerTeam settings;
     dayStartHour := dayStartHour settings;
     nightStartHour := nightStartHour settings;
     tournamentDurationMinutes := tournamentDurationMinutes settings;
     clockTimeMinutes := clockTimeMinutes settings;
     clockIncrementSeconds := clockIncrementSeconds settings;
     rated := rated settings;
     variant := variant settings |}.

(** An event that is a pause. *)
Definition isPause (e : Event) : bool :=
  match e with
  | Slept _ => true
  | _ => false
  end.

(** The day after the sample day, against a server that accepts
    everything. *)
Definition nextDayEnv : Environment :=
  {| OAUTH_TOKEN := Some goodToken; DRY_RUN := None;
     clock := sampleClock + 86400000; network := accepting |}.

(** The last millisecond but one that a [Date] holds:
    +275760-09-12T23:59:59.999Z. *)
Definition lastDayEnv : Environment :=
  {| OAUTH_TOKEN := Some goodToken; DRY_RUN := None;
     clock := JsDate.maxTime - 1; network := accepting |}.

(** The first value of the form field [key] of a request body. *)
Fixpoint field (key : string) (body : list (string * string)) : option string :=
  match body with
  | [] => None
  | kv :: rest => if String.eqb (fst kv) key then Some (snd kv) else field key rest
  end.
(* ================================================================== *)
(** * Facts about strings *)
(* ================================================================== *)

Module JsStringFacts.
Import JsString.

Lemma append_nil_r (s : string) : s ++ "" = s.
Proof. induction s as [|c s IH]; simpl; [reflexivity | now rewrite IH]. Qed.

Lemma append_assoc (a b c : string) : (a ++ b) ++ c = a ++ (b ++ c).
Proof. induction a as [|x a IH]; simpl; [reflexivity | now rewrite IH]. Qed.

Lemma length_append (a b : string) :
  String.length (a ++ b) = (String.length a + String.length b)%nat.
Proof. induction a as [|x a IH]; simpl; [reflexivity | now rewrite IH]. Qed.

Lemma startsWith_append (pat r : string) : startsWith pat (pat ++ r) = true.
Proof.
  induction pat as [|c pat IH]; simpl; [reflexivity |].
  now rewrite Ascii.eqb_refl, IH.
Qed.

Lemma startsWith_inv (pat s : string) :
  startsWith pat s = true -> s = pat ++ drop (String.length pat) s.
Proof.
  revert s; induction pat as [|c pat IH]; intros s H; simpl in *.
  - now destruct s.
  - destruct s as [|d s]; [discriminate |].
    apply andb_true_iff in H as [Hc Hs].
    apply Ascii.eqb_eq in Hc; subst d.
    simpl. f_equal. now apply IH.
Qed.

(** [includes] finds exactly the strings that have [pat] inside. *)
Lemma includes_intro (pat pre post : string) :
  includes pat (pre ++ pat ++ post) = true.
Proof.
  unfold includes.
  induction pre as [|c pre IH]; simpl.
  - destruct pat as [|p pat]; simpl; [now destruct post |].
    now rewrite Ascii.eqb_refl, startsWith_append.
  - destruct (startsWith pat (String c (pre ++ pat ++ post))); [reflexivity |].
    destruct (indexOf pat (pre ++ pat ++ post)); [reflexivity | discriminate].
Qed.

Lemma indexOf_some (pat s : string) (i : nat) :
  indexOf pat s = Some i ->
  s = take i s ++ pat ++ drop (i + String.length pat) s.
Proof.
  revert i; induction s as [|c s IH]; intros i H; simpl in H.
  - destruct (startsWith pat "") eqn:E; [| discriminate].
    injection H as <-. simpl. now apply startsWith_inv in E.
  - destruct (startsWith pat (String c s)) eqn:E.
    + injection H as <-. now apply startsWith_inv in E.
    + destruct (indexOf pat s) as [j|] eqn:Ej; [| discriminate].
      injection H as <-. simpl. f_equal. now apply IH.
Qed.

Lemma includes_elim (pat s : string) :
  includes pat s = true -> exists pre post, s = pre ++ pat ++ post.
Proof.
  unfold includes. destruct (indexOf pat s) as [i|] eqn:E; [| discriminate].
  intros _. eauto using indexOf_some.
Qed.

(** The index [indexOf] answers is the least at which [pat] starts. *)
Lemma indexOf_least (pat s : string) (i : nat) :
  indexOf pat s = Some i ->
  startsWith pat (drop i s) = true
  /\ forall j, (j < i)%nat -> startsWith pat (drop j s) = false.
Proof.
  revert i; induction s as [|c s IH]; intros i H; simpl in H.
  - destruct (startsWith pat "") eqn:E; [| discriminate].
    injection H as <-. split; [exact E | intros j Hj; inversion Hj].
  - destruct (startsWith pat (String c s)) eqn:E.
    + injection H as <-. split; [exact E | intros j Hj; inversion Hj].
    + destruct (indexOf pat s) as [k|] eqn:Ek; [| discriminate].
      injection H as <-. destruct (IH k eq_refl) as [Hk Hlt].
      split; [exact Hk |].
      intros [|j] Hj; [exact E | apply Hlt; lia].
Qed.

Lemma indexOf_none (pat s : string) :
  indexOf pat s = None -> forall j, startsWith pat (drop j s) = false.
Proof.
  induction s as [|c s IH]; intros H j; simpl in H.
  - destruct (startsWith pat "") eqn:E; [discriminate |]. now destruct j.
  - destruct (startsWith pat (String c s)) eqn:E; [discriminate |].
    destruct (indexOf pat s) eqn:Ek; [discriminate |].
    destruct j as [|j]; [exact E | now apply IH].
Qed.

(** Every character of a string found inside [s] is a character of [s]. *)
Lemma forallb_append (p : ascii -> bool) (a b : string) :
  forallb p (a ++ b) = forallb p a && forallb p b.
Proof.
  induction a as [|c a IH]; simpl; [reflexivity |].
  now rewrite IH, andb_assoc.
Qed.

Lemma forallb_includes (p : ascii -> bool) (pat s : string) :
  forallb p s = true -> includes pat s = true -> forallb p pat = true.
Proof.
  intros Hs Hi. apply includes_elim in Hi as (pre & post & ->).
  rewrite !forallb_append in Hs.
  now apply andb_true_iff in Hs as [_ [H _]%andb_true_iff].
Qed.

Lemma forallb_In (p : ascii -> bool) (s : string) (c : ascii) :
  forallb p s = true -> In c (list_ascii_of_string s) -> p c = true.
Proof.
  induction s as [|d s IH]; simpl; [intros _ [] |].
  intros [Hd Hs]%andb_true_iff [<- | Hin]; auto.
Qed.

(** Trimming leaves nothing exactly of the strings of white space. *)
Lemma trimEnd_empty (s : string) :
  trimEnd s = "" <-> forallb isWhiteSpace s = true.
Proof.
  induction s as [|c s IH]; simpl; [tauto |].
  destruct (trimEnd s) eqn:E.
  - destruct (isWhiteSpace c); simpl; [tauto |].
    split; discriminate.
  - split; [discriminate |].
    intros [_ H]%andb_true_iff. apply IH in H. discriminate.
Qed.

Lemma trimStart_whiteSpace (s : string) :
  forallb isWhiteSpace (trimStart s) = forallb isWhiteSpace s.
Proof.
  induction s as [|c s IH]; simpl; [reflexivity |].
  destruct (isWhiteSpace c) eqn:E; simpl; [exact IH | now rewrite E].
Qed.

Lemma trim_empty (s : string) :
  trim s = "" <-> forallb isWhiteSpace s = true.
Proof.
  unfold trim. now rewrite trimEnd_empty, trimStart_whiteSpace.
Qed.

(** Replacement texts without a dollar are taken as they are. *)
Lemma getSubstitution_plain (matched before after rep : string) :
  forallb plain rep = true -> getSubstitution matched before after rep = rep.
Proof.
  induction rep as [|c rep IH]; simpl; [reflexivity |].
  unfold plain at 1. intros [Hc Hr]%andb_true_iff.
  apply negb_true_iff in Hc. rewrite Hc. now rewrite IH.
Qed.

Lemma digits_plain (d : Decimal.uint) :
  forallb plain (NilEmpty.string_of_uint d) = true.
Proof. induction d; simpl; auto. Qed.

Lemma ofNumber_plain (n : Z) : forallb plain (ofNumber n) = true.
Proof.
  unfold ofNumber, NilZero.string_of_int, NilZero.string_of_uint.
  destruct (Z.to_int n) as [d|d]; destruct d; simpl;
    try reflexivity; apply digits_plain.
Qed.

End JsStringFacts.

(* ================================================================== *)
(** * The token validator and the two formatters *)
(* ================================================================== *)

Lemma tokenChar_alphanumeric (c : ascii) :
  tokenChar c = isAlphanumeric c || Ascii.eqb c "_" || Ascii.eqb c "-".
Proof.
  destruct c as [[|] [|] [|] [|] [|] [|] [|] [|]]; reflexivity.
Qed.

Lemma tokenChar_not_whiteSpace (c : ascii) :
  tokenChar c = true -> JsString.isWhiteSpace c = false.
Proof.
  destruct c as [[|] [|] [|] [|] [|] [|] [|] [|]]; (reflexivity || discriminate).
Qed.

Lemma whiteSpace_fails_regex (token : string) :
  JsString.forallb JsString.isWhiteSpace token = true ->
  tokenRegex_test token = false.
Proof.
  unfold tokenRegex_test. destruct token as [|c token]; [reflexivity |].
  simpl. intros [Hc _]%andb_true_iff.
  destruct (tokenChar c) eqn:E; [| reflexivity].
  apply tokenChar_not_whiteSpace in E. congruence.
Qed.

(** What the validator computes, in one formula. *)
Lemma validateOAuthToken_eq (token : string) :
  validateOAuthToken token =
    negb (JsString.includes "***" token)
    && negb (JsString.includes "YOUR_TOKEN" token)
    && negb (JsString.includes "PLACEHOLDER" token)
    && JsString.forallb tokenChar token
    && (10 <? Z.of_nat (String.length token)).
Proof.
  unfold validateOAuthToken.
  destruct (String.eqb_spec token "") as [-> | Hne]; [reflexivity |].
  destruct (String.eqb_spec (JsString.trim token) "") as [Ht | Ht]; simpl.
  - apply JsStringFacts.trim_empty in Ht.
    assert (Hall : JsString.forallb tokenChar token = false).
    { apply whiteSpace_fails_regex in Ht. unfold tokenRegex_test in Ht.
      destruct token; [congruence | exact Ht]. }
    rewrite Hall. now rewrite andb_false_r.
  - destruct (JsString.includes "***" token),
             (JsString.includes "YOUR_TOKEN" token),
             (JsString.includes "PLACEHOLDER" token); simpl; try reflexivity.
    unfold tokenRegex_test.
    destruct (String.eqb_spec token ""); [contradiction | reflexivity].
Qed.

(** C7. The token validator answers [false] for every string that is
    empty or made of white space only, that contains one of the markers
    [***], [YOUR_TOKEN], [PLACEHOLDER], that has a character other than a
    letter, a digit, a hyphen or an underscore, or that has at most ten
    characters; it answers [true] for a string of twenty letters and digits
    (one free of the marker [PLACEHOLDER], the only marker such a string
    can hold). *)
Theorem validateOAuthToken_spec (token : string) :
  (JsString.forallb JsString.isWhiteSpace token = true ->
   validateOAuthToken token = false)
  /\ (contains "***" token \/ contains "YOUR_TOKEN" token
      \/ contains "PLACEHOLDER" token ->
      validateOAuthToken token = false)
  /\ ((exists c, In c (list_ascii_of_string token)
                 /\ isAlphanumeric c = false /\ c <> "-"%char /\ c <> "_"%char) ->
      validateOAuthToken token = false)
  /\ ((String.length token <= 10)%nat -> validateOAuthToken token = false)
  /\ (String.length token = 20%nat ->
      JsString.forallb isAlphanumeric token = true ->
      ~ contains "PLACEHOLDER" token ->
      validateOAuthToken token = true).
Proof.
  rewrite validateOAuthToken_eq.
  split; [| split; [| split; [| split]]].
  - intros Hws.
    assert (Hall : JsString.forallb tokenChar token = false
                   \/ token = "").
    { destruct token as [|c token]; [now right | left].
      apply whiteSpace_fails_regex in Hws. exact Hws. }
    destruct Hall as [Hall | ->]; [| reflexivity].
    rewrite Hall. now rewrite andb_false_r.
  - intros [(pre & post & ->) | [(pre & post & ->) | (pre & post & ->)]];
      rewrite JsStringFacts.includes_intro; simpl;
      rewrite ?andb_false_r; reflexivity.
  - intros (c & Hin & Halnum & Hh & Hu).
    assert (Hall : JsString.forallb tokenChar token = false).
    { destruct (JsString.forallb tokenChar token) eqn:E; [| reflexivity].
      pose proof (JsStringFacts.forallb_In _ _ _ E Hin) as Hc.
      rewrite tokenChar_alphanumeric, Halnum in Hc. simpl in Hc.
      apply orb_true_iff in Hc as [Hc | Hc]; apply Ascii.eqb_eq in Hc;
        congruence. }
    rewrite Hall. now rewrite andb_false_r.
  - intros Hlen.
    assert (E : (10 <? Z.of_nat (String.length token)) = false)
      by (apply Z.ltb_ge; lia).
    rewrite E. now rewrite andb_false_r.
  - intros Hlen Halnum Hnp.
    assert (Hclass : JsString.forallb tokenChar token = true).
    { clear -Halnum. induction token as [|c token IH]; simpl in *; [reflexivity |].
      apply andb_true_iff in Halnum as [Hc Hr].
      rewrite tokenChar_alphanumeric, Hc. simpl. now apply IH. }
    assert (H1 : JsString.includes "***" token = false).
    { destruct (JsString.includes "***" token) eqn:E; [| reflexivity].
      now pose proof (JsStringFacts.forallb_includes _ _ _ Halnum E). }
    assert (H2 : JsString.includes "YOUR_TOKEN" token = false).
    { destruct (JsString.includes "YOUR_TOKEN" token) eqn:E; [| reflexivity].
      now pose proof (JsStringFacts.forallb_includes _ _ _ Halnum E). }
    assert (H3 : JsString.includes "PLACEHOLDER" token = false).
    { destruct (JsString.includes "PLACEHOLDER" token) eqn:E; [| reflexivity].
      exfalso. apply Hnp. now apply JsStringFacts.includes_elim. }
    rewrite H1, H2, H3, Hclass, Hlen. reflexivity.
Qed.

(** A witness: a token of twenty letters and digits is accepted. *)
Lemma validateOAuthToken_spec_witness :
  validateOAuthToken "abcdefghij0123456789" = true.
Proof.
  apply (proj2 (proj2 (proj2 (proj2
           (validateOAuthToken_spec "abcdefghij0123456789"))))).
  - reflexivity.
  - reflexivity.
  - intros Hc.
    assert (E : JsString.includes "PLACEHOLDER" "abcdefghij0123456789" = true).
    { destruct Hc as (pre & post & ->). apply JsStringFacts.includes_intro. }
    discriminate E.
Defined.

Lemma replace_plain (pat rep s : string) :
  JsString.forallb plain rep = true ->
  JsString.replace pat rep s = replaceFirstOccurrence pat rep s.
Proof.
  intros Hrep. unfold JsString.replace.
  induction s as [|c s IH]; simpl.
  - destruct (JsString.startsWith pat "") eqn:E; simpl; [| reflexivity].
    now rewrite JsStringFacts.getSubstitution_plain.
  - destruct (JsString.startsWith pat (String c s)) eqn:E; simpl.
    + now rewrite JsStringFacts.getSubstitution_plain.
    + destruct (JsString.indexOf pat s) as [i|] eqn:Ei; simpl.
      * rewrite JsStringFacts.getSubstitution_plain by exact Hrep.
        rewrite JsStringFacts.getSubstitution_plain in IH by exact Hrep.
        now rewrite IH.
      * now rewrite <- IH.
Qed.

Lemma typeLabel_plain (type : TournamentType) :
  JsString.forallb plain (typeLabel type) = true.
Proof. now destruct type. Qed.

(** The first-occurrence replace, said with positions: the text up to the
    first place [i] where [pat] starts and the text after that occurrence
    are kept, whatever they hold. *)
Lemma replaceFirstOccurrence_at (pat rep s : string) (i : nat) :
  JsString.indexOf pat s = Some i ->
  replaceFirstOccurrence pat rep s =
    JsString.take i s ++ rep ++ JsString.drop (i + String.length pat) s.
Proof.
  revert i; induction s as [|c s IH]; intros i H; simpl in *.
  - destruct (JsString.startsWith pat ""); [| discriminate].
    now injection H as <-.
  - destruct (JsString.startsWith pat (String c s)).
    + now injection H as <-.
    + destruct (JsString.indexOf pat s) as [j|]; [| discriminate].
      injection H as <-. simpl. now rewrite (IH j eq_refl).
Qed.

Lemma replaceFirstOccurrence_absent (pat rep s : string) :
  JsString.indexOf pat s = None -> replaceFirstOccurrence pat rep s = s.
Proof.
  induction s as [|c s IH]; intros H; simpl in *.
  - now destruct (JsString.startsWith pat "").
  - destruct (JsString.startsWith pat (String c s)); [discriminate |].
    destruct (JsString.indexOf pat s); [discriminate |]. now rewrite IH.
Qed.

(** C8. The name of tournament 7 of type Night holds ["Night"] and ["7"];
    a description is its template after one first-occurrence replace of
    [{TYPE}] and then one of [{DAY_NUM}], so that a second occurrence of a
    placeholder stays; the template ["Battle {TYPE} #{DAY_NUM}"] gives
    ["Battle Day #3"] for day 3 of type Day. *)
Theorem formatting_spec :
  buildTournamentName 7 Night = "LMAO Night '7'"
  /\ contains "Night" (buildTournamentName 7 Night)
  /\ contains "7" (buildTournamentName 7 Night)
  /\ (forall dayNum type template,
        buildDescription dayNum type template =
          replaceFirstOccurrence "{DAY_NUM}" (JsString.ofNumber dayNum)
            (replaceFirstOccurrence "{TYPE}" (typeLabel type) template))
  /\ buildDescription 3 Day "{TYPE} {TYPE} {DAY_NUM} {DAY_NUM}"
     = "Day {TYPE} 3 {DAY_NUM}"
  /\ buildDescription 3 Day "Battle {TYPE} #{DAY_NUM}" = "Battle Day #3".
Proof.
  split; [reflexivity |].
  split; [now exists "LMAO ", " '7'" |].
  split; [now exists "LMAO Night '", "'" |].
  split; [| split; reflexivity].
  intros dayNum type template. unfold buildDescription.
  rewrite (replace_plain "{TYPE}") by apply typeLabel_plain.
  now rewrite replace_plain by apply JsStringFacts.ofNumber_plain.
Qed.

(* ================================================================== *)
(** * Facts about dates *)
(* ================================================================== *)

Module JsDateFacts.
Import JsDate.

Ltac div_lia := Z.div_mod_to_equations; lia.

Lemma DaysInYear_cases (y : Z) : DaysInYear y = 365 \/ DaysInYear y = 366.
Proof.
  unfold DaysInYear.
  destruct (y mod 4 =? 0), (y mod 100 =? 0), (y mod 400 =? 0); simpl; auto.
Qed.

Lemma DayFromYear_succ (y : Z) :
  DayFromYear (y + 1) = DayFromYear y + DaysInYear y.
Proof.
  unfold DayFromYear, DaysInYear.
  destruct (Z.eqb_spec (y mod 4) 0), (Z.eqb_spec (y mod 100) 0),
           (Z.eqb_spec (y mod 400) 0); cbn [negb]; div_lia.
Qed.

(** [YearFromTime] is the year the day of [t] lies in. *)
Lemma YearFromTime_spec (t : Z) :
  DayFromYear (YearFromTime t) <= Day t < DayFromYear (YearFromTime t + 1).
Proof.
  unfold YearFromTime, TimeFromYear.
  set (d := Day t).
  assert (Ht : msPerDay * d <= t < msPerDay * d + msPerDay)
    by (unfold d, Day, msPerDay; div_lia).
  set (y0 := 1970 + 400 * d / 146097).
  assert (E : 146097 * (y0 - 1970) <= 400 * d < 146097 * (y0 - 1970) + 146097)
    by (unfold y0; div_lia).
  clearbody y0 d.
  destruct (Z.leb_spec (msPerDay * DayFromYear (y0 + 1)) t) as [H1|H1];
    [| destruct (Z.leb_spec (msPerDay * DayFromYear y0) t) as [H2|H2]];
    unfold DayFromYear, msPerDay in *; div_lia.
Qed.

Lemma DayWithinYear_range (t : Z) :
  0 <= DayWithinYear t < DaysInYear (YearFromTime t).
Proof.
  unfold DayWithinYear.
  pose proof (YearFromTime_spec t) as H.
  rewrite DayFromYear_succ in H. lia.
Qed.

Lemma InLeapYear_days (t : Z) :
  DaysInYear (YearFromTime t) = 365 + InLeapYear t.
Proof.
  unfold InLeapYear.
  destruct (DaysInYear_cases (YearFromTime t)) as [E | E]; rewrite E; reflexivity.
Qed.

Lemma MonthFromTime_range (t : Z) : 0 <= MonthFromTime t <= 11.
Proof.
  unfold MonthFromTime.
  repeat match goal with
         | |- context [if ?b then _ else _] => destruct b
         end; lia.
Qed.

Lemma DateFromTime_range (t : Z) : 1 <= DateFromTime t <= 31.
Proof.
  unfold DateFromTime, MonthFromTime.
  pose proof (DayWithinYear_range t) as Hd.
  rewrite InLeapYear_days in Hd.
  assert (Hl : InLeapYear t = 0 \/ InLeapYear t = 1)
    by (unfold InLeapYear; destruct (_ =? _); auto).
  set (d := DayWithinYear t) in *. set (l := InLeapYear t) in *.
  clearbody d l.
  repeat match goal with
         | |- context [if ?a <? ?b then _ else _] =>
             destruct (Z.ltb_spec a b)
         end; cbv [monthStart Z.eqb Pos.eqb]; lia.
Qed.

Lemma monthStart_range (leap m : Z) :
  0 <= leap <= 1 -> 0 <= monthStart leap m <= 335.
Proof.
  intros Hl. unfold monthStart.
  repeat match goal with
         | |- context [if ?b then _ else _] => destruct b
         end; lia.
Qed.

(** Building the day of the year and month of [t] gives [t]'s own day
    back, moved as far as the date differs. *)
Lemma MakeDay_same_month (t dt : Z) :
  MakeDay (YearFromTime t) (MonthFromTime t) dt = Day t + dt - DateFromTime t.
Proof.
  pose proof (MonthFromTime_range t) as Hm.
  unfold MakeDay.
  replace (MonthFromTime t / 12) with 0 by div_lia.
  replace (MonthFromTime t mod 12) with (MonthFromTime t) by div_lia.
  rewrite Z.add_0_r.
  change (if DaysInYear (YearFromTime t) =? 366 then 1 else 0)
    with (InLeapYear t).
  unfold DateFromTime, DayWithinYear. lia.
Qed.

Lemma TimeClip_valid (t : Z) : Z.abs t <= maxTime -> TimeClip t = Some t.
Proof. intros H. unfold TimeClip. now apply Z.leb_le in H as ->. Qed.

Lemma TimeClip_inv (t v : Z) : TimeClip t = Some v -> v = t /\ Z.abs t <= maxTime.
Proof.
  unfold TimeClip. destruct (Z.leb_spec (Z.abs t) maxTime); [| discriminate].
  intros [= <-]. auto.
Qed.

(** Moving the date of a day by [k] moves the time by [k] days. *)
Lemma setUTCDate_add (t k : Z) :
  setUTCDate (Some t) (num_add (getUTCDate (Some t)) (Some k))
  = TimeClip (t + k * msPerDay).
Proof.
  unfold setUTCDate, getUTCDate, num_add, option_map, MakeDate.
  rewrite MakeDay_same_month. f_equal.
  unfold Day, TimeWithinDay, msPerDay. div_lia.
Qed.

(** The start of a tournament, [hour] o'clock on the day of [t], is a
    time value whenever the day after [t] is one. *)
Lemma UTC_on_day_valid (t hour : Z) :
  - maxTime <= t -> t + msPerDay <= maxTime -> 0 <= hour <= 23 ->
  exists tv,
    UTC (getUTCFullYear (Some t))
        (num_sub (num_add (getUTCMonth (Some t)) (Some 1)) (Some 1))
        (getUTCDate (Some t)) (Some hour) (Some 0) (Some 0) (Some 0)
    = Some tv /\ Z.abs tv <= maxTime.
Proof.
  intros Hlo Hhi Hh.
  unfold UTC, getUTCFullYear, getUTCMonth, getUTCDate, num_add, num_sub,
         option_map.
  replace (MonthFromTime t + 1 - 1) with (MonthFromTime t) by lia.
  match goal with
  | |- exists tv, TimeClip ?x = Some tv /\ _ =>
      assert (Hx : Z.abs x <= maxTime);
      [| exists x; split; [now apply TimeClip_valid | exact Hx]]
  end.
  unfold MakeFullYear, MakeDate, MakeTime.
  destruct ((0 <=? YearFromTime t) && (YearFromTime t <=? 99)) eqn:Ey.
  - apply andb_true_iff in Ey as [Ey1%Z.leb_le Ey2%Z.leb_le].
    pose proof (MonthFromTime_range t) as Hm.
    pose proof (DateFromTime_range t) as Hd.
    unfold MakeDay.
    replace (MonthFromTime t / 12) with 0 by div_lia.
    replace (MonthFromTime t mod 12) with (MonthFromTime t) by div_lia.
    rewrite Z.add_0_r.
    set (leap := if DaysInYear (1900 + YearFromTime t) =? 366 then 1 else 0).
    assert (Hleap : 0 <= leap <= 1) by (unfold leap; destruct (_ =? _); lia).
    pose proof (monthStart_range leap (MonthFromTime t) Hleap) as Hms.
    assert (Hy : - 25567 <= DayFromYear (1900 + YearFromTime t) <= 10957)
      by (unfold DayFromYear; div_lia).
    unfold maxTime, msPerDay, msPerHour, msPerMinute, msPerSecond in *. lia.
  - rewrite MakeDay_same_month.
    unfold Day, maxTime, msPerDay, msPerHour, msPerMinute, msPerSecond in *.
    div_lia.
Qed.

Lemma createTournamentDate_total (t hour : Z) :
  - maxTime <= t -> t + msPerDay <= maxTime -> 0 <= hour <= 23 ->
  exists iso,
    createTournamentDate (getUTCFullYear (Some t))
      (num_add (getUTCMonth (Some t)) (Some 1)) (getUTCDate (Some t))
      (Some hour) (Some 0) = Normal iso.
Proof.
  intros Hlo Hhi Hh. unfold createTournamentDate.
  destruct (UTC_on_day_valid t hour Hlo Hhi Hh) as (tv & -> & Htv).
  unfold newDate. rewrite TimeClip_valid by exact Htv.
  unfold toISOString. eauto.
Qed.

End JsDateFacts.

(* ================================================================== *)
(** * The date of today *)
(* ================================================================== *)

Module TodayFacts.
Import JsString JsDate.

Lemma splitHead_append (a b : string) :
  forallb notT a = true -> splitHead "T" (a ++ String "T" b) = a.
Proof.
  induction a as [|c a IH]; simpl; [reflexivity |].
  unfold notT at 1. intros [Hc Ha]%andb_true_iff.
  apply negb_true_iff in Hc. rewrite Hc. now rewrite IH.
Qed.

Lemma digits_notT (d : Decimal.uint) :
  forallb notT (NilEmpty.string_of_uint d) = true.
Proof. induction d; simpl; auto. Qed.

Lemma ofNumber_notT (n : Z) : forallb notT (ofNumber n) = true.
Proof.
  unfold ofNumber, NilZero.string_of_int, NilZero.string_of_uint.
  destruct (Z.to_int n) as [d|d]; destruct d; simpl;
    try reflexivity; apply digits_notT.
Qed.

Lemma padZero_notT (width : nat) (n : Z) : forallb notT (padZero width n) = true.
Proof.
  unfold padZero. rewrite JsStringFacts.forallb_append, ofNumber_notT.
  rewrite andb_true_r.
  induction (width - String.length (ofNumber n))%nat as [|k IH]; [reflexivity |].
  simpl. destruct (repeat "0" k) eqn:E; simpl in *; [reflexivity |].
  exact IH.
Qed.

Lemma yearString_notT (y : Z) : forallb notT (yearString y) = true.
Proof.
  unfold yearString.
  destruct ((0 <=? y) && (y <=? 9999)); [apply padZero_notT |].
  destruct (y <? 0); simpl; apply padZero_notT.
Qed.

Lemma currentUTCDate_notT (t : Z) : forallb notT (currentUTCDate t) = true.
Proof.
  unfold currentUTCDate.
  rewrite !JsStringFacts.forallb_append.
  now rewrite yearString_notT, !padZero_notT.
Qed.

(** [now.toISOString().split('T')[0]] is the date of the clock. *)
Lemma today_spec (t : Z) :
  validTime t ->
  exists nowISO,
    toISOString (newDate (Some t)) = Normal nowISO
    /\ splitHead "T" nowISO = currentUTCDate t.
Proof.
  intros Ht. unfold newDate.
  rewrite JsDateFacts.TimeClip_valid by (unfold validTime in Ht; lia).
  eexists; split; [reflexivity |].
  rewrite <- (splitHead_append (currentUTCDate t)
                (padZero 2 (HourFromTime t) ++ ":" ++ padZero 2 (MinFromTime t)
                 ++ ":" ++ padZero 2 (SecFromTime t) ++ "."
                 ++ padZero 3 (msFromTime t) ++ "Z"))
    by apply currentUTCDate_notT.
  f_equal. unfold currentUTCDate.
  now rewrite !JsStringFacts.append_assoc.
Qed.

End TodayFacts.

(* ================================================================== *)
(** * The schedule *)
(* ================================================================== *)

Lemma scheduleLoop_slots (now : JsDate.Date) (nextDayNum : Z)
  (settings : TournamentSettings) (offsets : list Z) :
  forall acc tournaments,
    scheduleLoop now nextDayNum settings offsets acc = Normal tournaments ->
    map slot tournaments = (map slot acc ++ slotsOf nextDayNum offsets)%list.
Proof.
  induction offsets as [|dayOffset rest IH]; intros acc tournaments H.
  - injection H as <-. simpl. now rewrite app_nil_r.
  - cbn [scheduleLoop] in H.
    destruct (createTournamentDate _ _ _ (Some (dayStartHour settings)) _)
      as [dayStart | |]; cbn [andThen] in H; try discriminate.
    destruct (createTournamentDate _ _ _ (Some (nightStartHour settings)) _)
      as [nightStart | |]; cbn [andThen] in H; try discriminate.
    apply IH in H. rewrite H. unfold push.
    rewrite !map_app. cbn [map slot slotsOf flat_map tournament_dayNum tournament_type].
    rewrite <- !app_assoc. reflexivity.
Qed.

Lemma scheduleLoop_total (t nextDayNum : Z) (settings : TournamentSettings)
  (offsets : list Z) :
  validTime t -> t + 7 * JsDate.msPerDay <= JsDate.maxTime ->
  validHours settings ->
  Forall (fun dayOffset => 0 <= dayOffset <= 6) offsets ->
  forall acc, exists tournaments,
    scheduleLoop (Some t) nextDayNum settings offsets acc = Normal tournaments.
Proof.
  intros Ht Hweek [Hday Hnight] Hoff.
  induction Hoff as [|dayOffset rest Hd _ IH]; intros acc; [now exists acc |].
  cbn [scheduleLoop]. unfold JsDate.copy.
  rewrite JsDateFacts.setUTCDate_add.
  assert (Hrange : - JsDate.maxTime <= t + dayOffset * JsDate.msPerDay
                   /\ t + dayOffset * JsDate.msPerDay + JsDate.msPerDay
                      <= JsDate.maxTime)
    by (unfold validTime, JsDate.msPerDay in *; lia).
  rewrite JsDateFacts.TimeClip_valid by (unfold JsDate.msPerDay in *; lia).
  destruct Hrange as [Hlo Hhi].
  destruct (JsDateFacts.createTournamentDate_total _ _ Hlo Hhi Hday) as [d ->].
  destruct (JsDateFacts.createTournamentDate_total _ _ Hlo Hhi Hnight) as [n ->].
  cbn [andThen]. apply IH.
Qed.

Lemma buildTournaments_slots (now : JsDate.Date) (nextDayNum : Z)
  (settings : TournamentSettings) (tournaments : list Tournament) :
  buildTournaments now nextDayNum settings = Normal tournaments ->
  map slot tournaments =
    [ (nextDayNum, Day); (nextDayNum, Night);
      (nextDayNum + 1, Day); (nextDayNum + 1, Night);
      (nextDayNum + 2, Day); (nextDayNum + 2, Night);
      (nextDayNum + 3, Day); (nextDayNum + 3, Night);
      (nextDayNum + 4, Day); (nextDayNum + 4, Night);
      (nextDayNum + 5, Day); (nextDayNum + 5, Night);
      (nextDayNum + 6, Day); (nextDayNum + 6, Night) ].
Proof.
  intros H. apply scheduleLoop_slots in H. rewrite H.
  cbn [map app slotsOf dayOffsets flat_map]. now rewrite Z.add_0_r.
Qed.

Lemma buildTournaments_total (t nextDayNum : Z) (settings : TournamentSettings) :
  validTime t -> t + 7 * JsDate.msPerDay <= JsDate.maxTime ->
  validHours settings ->
  exists tournaments,
    buildTournaments (JsDate.newDate (Some t)) nextDayNum settings
    = Normal tournaments.
Proof.
  intros Ht Hweek Hh. unfold buildTournaments, JsDate.newDate.
  rewrite JsDateFacts.TimeClip_valid by (unfold validTime in Ht; lia).
  apply scheduleLoop_total; try assumption.
  unfold dayOffsets. repeat constructor; lia.
Qed.

Lemma slots_dayNums (tournaments : list Tournament) :
  map tournament_dayNum tournaments = map fst (map slot tournaments).
Proof. rewrite map_map. reflexivity. Qed.

Lemma slots_types (tournaments : list Tournament) :
  map tournament_type tournaments = map snd (map slot tournaments).
Proof. rewrite map_map. reflexivity. Qed.

(** C3. For every base date (an instant at least a week before the last
    one a [Date] can hold), every first number and settings with hours of
    a day, the schedule calculator produces exactly 14 definitions, Day
    then Night for each day, days in ascending order, numbered
    [startDayNum], [startDayNum], ..., [startDayNum + 6], [startDayNum + 6];
    from 5 on the numbers are 5, 5, 6, 6, ..., 11, 11. *)
Theorem schedule_spec (t startDayNum : Z) (settings : TournamentSettings) :
  validTime t -> t + 7 * JsDate.msPerDay <= JsDate.maxTime ->
  validHours settings ->
  exists tournaments,
    buildTournaments (JsDate.newDate (Some t)) startDayNum settings
    = Normal tournaments
    /\ List.length tournaments = 14%nat
    /\ map tournament_dayNum tournaments =
         [ startDayNum; startDayNum; startDayNum + 1; startDayNum + 1;
           startDayNum + 2; startDayNum + 2; startDayNum + 3; startDayNum + 3;
           startDayNum + 4; startDayNum + 4; startDayNum + 5; startDayNum + 5;
           startDayNum + 6; startDayNum + 6 ]
    /\ map tournament_type tournaments =
         [ Day; Night; Day; Night; Day; Night; Day; Night;
           Day; Night; Day; Night; Day; Night ]
    /\ (startDayNum = 5 ->
        map tournament_dayNum tournaments =
          [5; 5; 6; 6; 7; 7; 8; 8; 9; 9; 10; 10; 11; 11]).
Proof.
  intros Ht Hweek Hh.
  destruct (buildTournaments_total t startDayNum settings Ht Hweek Hh)
    as [tournaments Hb].
  exists tournaments. split; [exact Hb |].
  pose proof (buildTournaments_slots _ _ _ _ Hb) as Hs.
  assert (Hn : map tournament_dayNum tournaments =
         [ startDayNum; startDayNum; startDayNum + 1; startDayNum + 1;
           startDayNum + 2; startDayNum + 2; startDayNum + 3; startDayNum + 3;
           startDayNum + 4; startDayNum + 4; startDayNum + 5; startDayNum + 5;
           startDayNum + 6; startDayNum + 6 ])
    by (rewrite slots_dayNums, Hs; reflexivity).
  split; [| split; [exact Hn | split]].
  - rewrite <- (length_map slot), Hs. reflexivity.
  - rewrite slots_types, Hs. reflexivity.
  - intros ->. rewrite Hn. reflexivity.
Qed.


(** A witness: the schedule of the week from 27 February 2024 on. *)
Lemma schedule_spec_witness :
  exists tournaments,
    buildTournaments (JsDate.newDate (Some sampleClock)) 5 sampleSettings
    = Normal tournaments
    /\ map tournament_dayNum tournaments =
         [5; 5; 6; 6; 7; 7; 8; 8; 9; 9; 10; 10; 11; 11].
Proof.
  destruct (schedule_spec sampleClock 5 sampleSettings) as (ts & Hb & _ & _ & _ & H5).
  - unfold validTime, sampleClock, JsDate.maxTime. lia.
  - unfold sampleClock, JsDate.msPerDay, JsDate.maxTime. lia.
  - unfold validHours, sampleSettings. simpl. lia.
  - exists ts. split; [exact Hb | now apply H5].
Defined.

(* ================================================================== *)
(** * The submission client *)
(* ================================================================== *)

Section Client.

Variable env : Environment.

Lemma createTeamBattle_invalid (params : Params) (w : World) :
  validateOAuthToken (params_token params) = false ->
  createTeamBattle env params w = (Normal invalidTokenResult, w).
Proof. intros H. unfold createTeamBattle. now rewrite H. Qed.

Lemma createTeamBattle_dryRun (params : Params) (w : World) :
  validateOAuthToken (params_token params) = true ->
  params_dryRun params = true ->
  createTeamBattle env params w = (Normal (pendingResult params), w).
Proof. intros Hv Hd. unfold createTeamBattle. now rewrite Hv, Hd. Qed.

(** A real submission sends one request and resolves, whatever the
    network does. *)
Lemma createTeamBattle_real (params : Params) (w : World) :
  validateOAuthToken (params_token params) = true ->
  params_dryRun params = false ->
  exists result,
    createTeamBattle env params w
    = (Normal result, record (Fetched (requestOf params)) w).
Proof.
  intros Hv Hd. unfold createTeamBattle. rewrite Hv, Hd. cbn [negb].
  unfold tryCatch, bind, fetch, await, ret, requestOf.
  destruct (network env (journal w) _) as [res | error]; [| eauto].
  destruct (res_ok res); cbn [negb].
  - destruct (res_json res); eauto.
  - destruct (res_text res); eauto.
Qed.

Lemma createTeamBattle_total (params : Params) (w : World) :
  exists result w',
    createTeamBattle env params w = (Normal result, w')
    /\ (w' = w \/ w' = record (Fetched (requestOf params)) w).
Proof.
  destruct (validateOAuthToken (params_token params)) eqn:Hv.
  - destruct (params_dryRun params) eqn:Hd.
    + rewrite createTeamBattle_dryRun by assumption. eauto.
    + destruct (createTeamBattle_real params w Hv Hd) as [r ->]. eauto.
  - rewrite createTeamBattle_invalid by assumption. eauto.
Qed.

(** C5. The submission client never lets a fault out: it always resolves
    to a result. With a credential that fails validation the result is
    [{ok:false, error}] and the network is not touched; on a status that
    is not a success it is [{ok:false, error: "<status>: <body>"}]; and an
    exception of the network (from [fetch] or from reading the body) is
    caught and becomes [{ok:false, error: <the exception as a string>}]. *)
Theorem createTeamBattle_contains_faults (params : Params) (w : World) :
  (exists result w', createTeamBattle env params w = (Normal result, w'))
  /\ (validateOAuthToken (params_token params) = false ->
      exists error,
        createTeamBattle env params w
        = (Normal {| result_ok := false; result_url := None;
                     result_error := Some error |}, w))
  /\ (validateOAuthToken (params_token params) = true ->
      params_dryRun params = false ->
      let sent := record (Fetched (requestOf params)) w in
      (forall res body,
          network env (journal w) (requestOf params) = Resolved res ->
          res_ok res = false -> res_text res = Resolved body ->
          createTeamBattle env params w
          = (Normal {| result_ok := false; result_url := None;
                       result_error :=
                         Some (JsString.ofNumber (res_status res) ++ ": " ++ body) |},
             sent))
      /\ (forall error,
            network env (journal w) (requestOf params) = Rejected error ->
            createTeamBattle env params w
            = (Normal {| result_ok := false; result_url := None;
                         result_error := Some error |}, sent))
      /\ (forall res error,
            network env (journal w) (requestOf params) = Resolved res ->
            (if res_ok res then res_json res = Rejected error
             else res_text res = Rejected error) ->
            createTeamBattle env params w
            = (Normal {| result_ok := false; result_url := None;
                         result_error := Some error |}, sent))).
Proof.
  split; [| split].
  - destruct (createTeamBattle_total params w) as (r & w' & H & _). eauto.
  - intros Hv. rewrite createTeamBattle_invalid by exact Hv.
    unfold invalidTokenResult. eauto.
  - intros Hv Hd sent. unfold createTeamBattle. rewrite Hv, Hd. cbn [negb].
    unfold tryCatch, bind, fetch, await, ret, requestOf in *.
    split; [| split].
    + intros res body Hn Hok Ht. rewrite Hn, Hok. cbn [negb]. now rewrite Ht.
    + intros error Hn. now rewrite Hn.
    + intros res error Hn Ht. rewrite Hn.
      destruct (res_ok res); cbn [negb]; now rewrite Ht.
Qed.

End Client.

(* ================================================================== *)
(** * The submission loop *)
(* ================================================================== *)

Lemma afterPauses_O (w : World) : afterPauses 0 w = w.
Proof. destruct w. unfold afterPauses. simpl. now rewrite app_nil_r. Qed.

Lemma afterPauses_S (n : nat) (w : World) :
  afterPauses n (record (Slept 10000) w) = afterPauses (S n) w.
Proof.
  unfold afterPauses, record. simpl. now rewrite <- app_assoc.
Qed.

Lemma sameFiles_refl (w : World) : sameFiles w w.
Proof. now split. Qed.

Lemma sameFiles_trans (w1 w2 w3 : World) :
  sameFiles w1 w2 -> sameFiles w2 w3 -> sameFiles w1 w3.
Proof. intros [? ?] [? ?]. split; congruence. Qed.

Lemma sameFiles_record (e : Event) (w : World) : sameFiles w (record e w).
Proof. now split. Qed.

Lemma invitedTeams_host_only (params : Params) :
  params_teams params = [params_hostTeamId params] -> invitedTeams params = [].
Proof.
  intros H. unfold invitedTeams. rewrite H. simpl.
  rewrite String.eqb_refl. now rewrite andb_false_r.
Qed.

Lemma teamsEntries_requestBody (params : Params) :
  teamsEntries (requestBody params)
  = map (fun t => ("teams[]", t)) (invitedTeams params).
Proof.
  unfold requestBody, teamsEntries. simpl.
  induction (invitedTeams params) as [|t ts IH]; simpl; [reflexivity |].
  now rewrite IH.
Qed.

Section Loop.

Variable env : Environment.
Variable oauthToken : string.
Variable settings : TournamentSettings.
Variable dry : bool.

Lemma submission_invites_nobody (tournament : Tournament) :
  loopEvent (Fetched (requestOf (submissionParams oauthToken settings dry tournament))).
Proof.
  split; [| reflexivity].
  unfold invitesNobody, requestOf, tournamentRequest. cbn [req_body].
  rewrite teamsEntries_requestBody.
  now rewrite invitedTeams_host_only.
Qed.

(** The loop always ends with two counters; it counts every tournament
    once, leaves the files alone, and sends only requests of
    submissions. *)
Lemma submitLoop_total (remaining : list Tournament) :
  forall i successCount failureCount w,
  exists successCount' failureCount' w' events,
    submitLoop env oauthToken settings dry i remaining
               successCount failureCount w
    = (Normal (successCount', failureCount'), w')
    /\ successCount <= successCount' /\ failureCount <= failureCount'
    /\ successCount' + failureCount'
       = successCount + failureCount + Z.of_nat (List.length remaining)
    /\ sameFiles w w'
    /\ journal w' = (journal w ++ events)%list
    /\ Forall loopEvent events.
Proof.
  induction remaining as [|tournament rest IH]; intros i s f w.
  - exists s, f, w, []. cbn [submitLoop ret List.length Z.of_nat].
    rewrite app_nil_r.
    repeat split; auto using sameFiles_refl; lia.
  - cbn [submitLoop]. unfold bind at 1.
    set (w0 := snd ((if 0 <? i then sleep 10000 else ret tt) w)).
    assert (Hw0 : (if 0 <? i then sleep 10000 else ret tt) w = (Normal tt, w0))
      by (unfold w0; destruct (0 <? i); reflexivity).
    assert (Hj0 : exists ev0, journal w0 = (journal w ++ ev0)%list
                              /\ Forall loopEvent ev0 /\ sameFiles w w0).
    { unfold w0. destruct (0 <? i); simpl.
      - exists [Slept 10000]. repeat split. repeat constructor.
      - exists []. rewrite app_nil_r. repeat split. constructor. }
    rewrite Hw0. clearbody w0. destruct Hj0 as (ev0 & Hj0 & Hev0 & Hf0).
    unfold bind at 1.
    destruct (createTeamBattle_total env (submissionParams oauthToken settings dry tournament) w0)
      as (result & w1 & Hc & Hw1).
    rewrite Hc.
    assert (Hj1 : exists ev1, journal w1 = (journal w0 ++ ev1)%list
                              /\ Forall loopEvent ev1 /\ sameFiles w0 w1).
    { destruct Hw1 as [-> | ->].
      - exists []. rewrite app_nil_r. repeat split. constructor.
      - exists [Fetched (requestOf (submissionParams oauthToken settings dry tournament))].
        repeat split. constructor; [apply submission_invites_nobody | constructor]. }
    destruct Hj1 as (ev1 & Hj1 & Hev1 & Hf1).
    destruct (result_ok result).
    + destruct (IH (i + 1) (s + 1) f w1)
        as (s' & f' & w' & evs & -> & Hs & Hf & Hsum & Hfiles & Hj & Hev).
      exists s', f', w', (ev0 ++ ev1 ++ evs)%list.
      repeat split; try lia.
      * cbn [List.length]. lia.
      * destruct Hf0, Hf1, Hfiles. congruence.
      * destruct Hf0, Hf1, Hfiles. congruence.
      * rewrite Hj, Hj1, Hj0. now rewrite <- !app_assoc.
      * now rewrite !Forall_app.
    + destruct (IH (i + 1) s (f + 1) w1)
        as (s' & f' & w' & evs & -> & Hs & Hf & Hsum & Hfiles & Hj & Hev).
      exists s', f', w', (ev0 ++ ev1 ++ evs)%list.
      repeat split; try lia.
      * cbn [List.length]. lia.
      * destruct Hf0, Hf1, Hfiles. congruence.
      * destruct Hf0, Hf1, Hfiles. congruence.
      * rewrite Hj, Hj1, Hj0. now rewrite <- !app_assoc.
      * now rewrite !Forall_app.
Qed.

End Loop.

Section LoopOutcomes.

Variable env : Environment.
Variable oauthToken : string.
Variable settings : TournamentSettings.
Variable dry : bool.

(** When every submission comes out the same way, the loop counts all
    tournaments on that side. *)
Lemma submitLoop_counts (b : bool) (remaining : list Tournament) :
  (forall tournament w result w',
      createTeamBattle env (submissionParams oauthToken settings dry tournament) w = (Normal result, w') ->
      result_ok result = b) ->
  forall i successCount failureCount w successCount' failureCount' w',
    submitLoop env oauthToken settings dry i remaining
               successCount failureCount w
    = (Normal (successCount', failureCount'), w') ->
    (successCount', failureCount')
    = if b then (successCount + Z.of_nat (List.length remaining), failureCount)
      else (successCount, failureCount + Z.of_nat (List.length remaining)).
Proof.
  intros Hall.
  induction remaining as [|tournament rest IH]; intros i s f w s' f' w' H.
  - cbn in H. injection H as <- <- <-. cbn [List.length Z.of_nat].
    rewrite !Z.add_0_r. now destruct b.
  - cbn [submitLoop] in H. unfold bind at 1 in H.
    set (w0 := snd ((if 0 <? i then sleep 10000 else ret tt) w)) in *.
    assert (Hw0 : (if 0 <? i then sleep 10000 else ret tt) w = (Normal tt, w0))
      by (unfold w0; destruct (0 <? i); reflexivity).
    rewrite Hw0 in H. clearbody w0. unfold bind at 1 in H.
    destruct (createTeamBattle_total env (submissionParams oauthToken settings dry tournament) w0)
      as (result & w1 & Hc & _).
    rewrite Hc in H.
    rewrite (Hall _ _ _ _ Hc) in H.
    destruct b; apply IH in H; rewrite H; cbn [List.length]; f_equal; lia.
Qed.

(** When no submission touches the world, the loop only pauses. *)
Lemma submitLoop_quiet (remaining : list Tournament) :
  (forall tournament w, exists result,
      createTeamBattle env (submissionParams oauthToken settings dry tournament) w = (Normal result, w)) ->
  forall i successCount failureCount w,
  0 <= i ->
  exists counts,
    submitLoop env oauthToken settings dry i remaining
               successCount failureCount w
    = (Normal counts, afterPauses (pausesFrom i (List.length remaining)) w).
Proof.
  intros Hall.
  assert (Hpos : forall rest i s f w, 0 < i ->
    exists counts,
      submitLoop env oauthToken settings dry i rest s f w
      = (Normal counts, afterPauses (List.length rest) w)).
  { induction rest as [|tournament rest IH]; intros i s f w Hi.
    - eexists. cbn. now rewrite afterPauses_O.
    - cbn [submitLoop]. unfold bind at 1.
      rewrite (proj2 (Z.ltb_lt 0 i) Hi). cbn [sleep].
      unfold bind at 1.
      destruct (Hall tournament (record (Slept 10000) w)) as [result ->].
      cbn [List.length]. rewrite <- afterPauses_S.
      destruct (result_ok result); apply IH; lia. }
  intros i s f w Hi0. unfold pausesFrom.
  destruct (Z.ltb_spec 0 i) as [Hi | Hi]; [now apply Hpos |].
  destruct remaining as [|tournament rest].
  - eexists. cbn. now rewrite afterPauses_O.
  - cbn [submitLoop]. unfold bind at 1.
    rewrite (proj2 (Z.ltb_ge 0 i) Hi). cbn [ret].
    unfold bind at 1.
    destruct (Hall tournament w) as [result ->].
    cbn [List.length pred].
    destruct (result_ok result); apply Hpos; lia.
Qed.

End LoopOutcomes.

Lemma createTeamBattle_accepted (env : Environment) (params : Params)
  (w : World) (result : SubmissionResult) (w' : World) :
  serverAccepts env ->
  validateOAuthToken (params_token params) = true ->
  params_dryRun params = false ->
  createTeamBattle env params w = (Normal result, w') ->
  result_ok result = true.
Proof.
  intros Hnet Hv Hd. unfold createTeamBattle. rewrite Hv, Hd. cbn [negb].
  unfold tryCatch, bind, fetch, await, ret.
  destruct (Hnet (journal w) (tournamentRequest params (requestBody params)))
    as (res & data & -> & -> & ->).
  cbn [negb]. now intros [= <- _].
Qed.

(* ================================================================== *)
(** * The run *)
(* ================================================================== *)

Lemma updateState_total (settings : TournamentSettings) (today : string)
  (tournaments : list Tournament) (successCount : Z) (w : World) :
  exists w', updateState settings today tournaments successCount w = (Normal tt, w').
Proof.
  unfold updateState.
  destruct (0 <? successCount); [| now exists w].
  destruct (Math_max _); [| now exists w].
  unfold bind. cbn. eauto.
Qed.

Lemma updateState_none (settings : TournamentSettings) (today : string)
  (tournaments : list Tournament) (successCount : Z) (w : World) :
  successCount <= 0 ->
  updateState settings today tournaments successCount w = (Normal tt, w).
Proof.
  intros H. unfold updateState. now apply Z.ltb_ge in H as ->.
Qed.

Lemma updateState_some (settings : TournamentSettings) (today : string)
  (tournaments : list Tournament) (successCount maxDayNum : Z) (w : World) :
  0 < successCount ->
  Math_max (map tournament_dayNum tournaments) = Some maxDayNum ->
  updateState settings today tournaments successCount w
  = (Normal tt,
     {| settingsFile := Some (setLastTournamentDayNum settings maxDayNum);
        stateFile := Some {| lastCreationDate := today |};
        journal := journal w ++
          [ WroteSettings (setLastTournamentDayNum settings maxDayNum);
            WroteState {| lastCreationDate := today |} ] |}).
Proof.
  intros H Hm. unfold updateState. apply Z.ltb_lt in H as ->. rewrite Hm.
  unfold bind. cbn. now rewrite <- app_assoc.
Qed.

Lemma Math_max_schedule (now : JsDate.Date) (nextDayNum : Z)
  (settings : TournamentSettings) (tournaments : list Tournament) :
  buildTournaments now nextDayNum settings = Normal tournaments ->
  Math_max (map tournament_dayNum tournaments) = Some (nextDayNum + 6).
Proof.
  intros H. apply buildTournaments_slots in H.
  rewrite slots_dayNums, H. cbn [map fst Math_max fold_left].
  f_equal. lia.
Qed.

Section Run.

Variable env : Environment.

Lemma main_without_token (w : World) :
  OAUTH_TOKEN env = None \/ OAUTH_TOKEN env = Some "" ->
  main env w = (Exited 1, w).
Proof.
  intros [H | H]; unfold main, tryCatch, bind; rewrite H; reflexivity.
Qed.

Lemma main_without_settings (w : World) :
  settingsFile w = None -> main env w = (Exited 1, w).
Proof.
  intros H. unfold main, tryCatch. unfold bind at 1.
  destruct (OAUTH_TOKEN env) as [token|]; [| reflexivity].
  destruct (String.eqb token ""); [reflexivity |].
  cbn [ret]. unfold bind at 1. unfold readJSON at 1. now rewrite H.
Qed.

Lemma loadState_spec (w : World) : loadState w = (Normal (stateOf w), w).
Proof.
  unfold loadState, tryCatch, readJSON, stateOf.
  now destruct (stateFile w).
Qed.

(** Up to the guard. *)
Lemma main_guard (w : World) (token : string) (settings : TournamentSettings) :
  initialized env w token settings -> validTime (clock env) ->
  main env w =
    if String.eqb (lastCreationDate (stateOf w)) (currentUTCDate (clock env))
    then (Normal tt, w)
    else
      tryCatch
        (tournaments <- lift (buildTournaments (now env)
                                (lastTournamentDayNum settings + 1) settings) ;;
         counts <- submitLoop env token settings (dryRun env) 0 tournaments 0 0 ;;
         updateState settings (currentUTCDate (clock env)) tournaments (fst counts) ;;
         if 0 <? snd counts then process_exit 1 else ret tt)
        (fun error => process_exit 1) w.
Proof.
  intros (Htoken & Hne & Hsettings) Hclock.
  unfold main, tryCatch. unfold bind at 1. rewrite Htoken.
  apply String.eqb_neq in Hne. rewrite Hne. cbn [ret].
  unfold bind at 1. unfold readJSON at 1. rewrite Hsettings.
  unfold bind at 1. rewrite loadState_spec.
  unfold bind at 1. unfold now.
  destruct (TodayFacts.today_spec (clock env) Hclock) as (nowISO & -> & Htoday).
  cbn [lift]. cbv zeta. rewrite Htoday.
  destruct (String.eqb (lastCreationDate (stateOf w))
                       (currentUTCDate (clock env))); reflexivity.
Qed.

(** Through the submissions to the end. *)
Lemma main_submitted (w : World) (token : string) (settings : TournamentSettings)
  (tournaments : list Tournament) (successCount failureCount : Z) (w1 : World) :
  initialized env w token settings -> validTime (clock env) -> guardOpen env w ->
  buildTournaments (now env) (lastTournamentDayNum settings + 1) settings
  = Normal tournaments ->
  submitLoop env token settings (dryRun env) 0 tournaments 0 0 w
  = (Normal (successCount, failureCount), w1) ->
  main env w
  = ((if 0 <? failureCount then Exited 1 else Normal tt),
     snd (updateState settings (currentUTCDate (clock env)) tournaments
                      successCount w1)).
Proof.
  intros Hinit Hclock Hguard Hb Hloop.
  rewrite (main_guard w token settings Hinit Hclock).
  apply String.eqb_neq in Hguard. rewrite Hguard.
  unfold tryCatch. unfold bind at 1. rewrite Hb. cbn [lift].
  unfold bind at 1. rewrite Hloop. cbn [fst snd].
  unfold bind at 1.
  destruct (updateState_total settings (currentUTCDate (clock env))
              tournaments successCount w1) as [w2 ->].
  cbn [snd]. now destruct (0 <? failureCount).
Qed.

End Run.

Lemma createTournamentDate_not_exited (year month day hour minute : number)
  (code : Z) :
  createTournamentDate year month day hour minute <> Exited code.
Proof.
  unfold createTournamentDate, JsDate.toISOString.
  now destruct (JsDate.newDate _).
Qed.

Lemma scheduleLoop_not_exited (now : JsDate.Date) (nextDayNum : Z)
  (settings : TournamentSettings) (offsets : list Z) (code : Z) :
  forall acc, scheduleLoop now nextDayNum settings offsets acc <> Exited code.
Proof.
  induction offsets as [|dayOffset rest IH]; intros acc; [discriminate |].
  cbn [scheduleLoop].
  destruct (createTournamentDate _ _ _ (Some (dayStartHour settings)) _)
    as [dayStart | |] eqn:Ed; cbn [andThen]; try discriminate.
  - destruct (createTournamentDate _ _ _ (Some (nightStartHour settings)) _)
      as [nightStart | |] eqn:En; cbn [andThen]; try discriminate.
    + apply IH.
    + now apply createTournamentDate_not_exited in En.
  - now apply createTournamentDate_not_exited in Ed.
Qed.

Section RunCases.

Variable env : Environment.

Lemma run_submitted (w : World) (token : string) (settings : TournamentSettings)
  (tournaments : list Tournament) (successCount failureCount : Z) (w1 : World) :
  initialized env w token settings -> validTime (clock env) -> guardOpen env w ->
  buildTournaments (now env) (lastTournamentDayNum settings + 1) settings
  = Normal tournaments ->
  submitLoop env token settings (dryRun env) 0 tournaments 0 0 w
  = (Normal (successCount, failureCount), w1) ->
  run env w
  = ((if 0 <? failureCount then 1 else 0),
     snd (updateState settings (currentUTCDate (clock env)) tournaments
                      successCount w1)).
Proof.
  intros Hinit Hclock Hguard Hb Hloop. unfold run.
  rewrite (main_submitted env w token settings tournaments _ _ w1
             Hinit Hclock Hguard Hb Hloop).
  now destruct (0 <? failureCount).
Qed.

Lemma run_skipped (w : World) (token : string) (settings : TournamentSettings) :
  initialized env w token settings -> validTime (clock env) ->
  lastCreationDate (stateOf w) = currentUTCDate (clock env) ->
  run env w = (0, w).
Proof.
  intros Hinit Hclock Hguard. unfold run.
  rewrite (main_guard env w token settings Hinit Hclock).
  apply String.eqb_eq in Hguard. now rewrite Hguard.
Qed.

Lemma run_invalid_clock (w : World) (token : string)
  (settings : TournamentSettings) :
  initialized env w token settings -> ~ validTime (clock env) ->
  run env w = (1, w).
Proof.
  intros (Htoken & Hne & Hsettings) Hclock.
  unfold run, main, tryCatch. unfold bind at 1. rewrite Htoken.
  apply String.eqb_neq in Hne. rewrite Hne. cbn [ret].
  unfold bind at 1. unfold readJSON at 1. rewrite Hsettings.
  unfold bind at 1. rewrite loadState_spec.
  unfold bind at 1. unfold now, JsDate.newDate, JsDate.TimeClip.
  destruct (Z.leb_spec (Z.abs (clock env)) JsDate.maxTime) as [H | H];
    [| reflexivity].
  exfalso. apply Hclock. unfold validTime. lia.
Qed.

(** Every run is of one of three kinds: it aborts with exit code 1 and
    has done nothing; it is skipped with exit code 0 and has done
    nothing; or it goes through the submissions and the update, and its
    exit code tells whether a submission failed. *)
Lemma run_cases (w : World) :
  run env w = (1, w)
  \/ run env w = (0, w)
  \/ exists token settings tournaments successCount failureCount w1,
       initialized env w token settings /\ validTime (clock env)
       /\ guardOpen env w
       /\ buildTournaments (now env) (lastTournamentDayNum settings + 1)
                           settings = Normal tournaments
       /\ submitLoop env token settings (dryRun env) 0 tournaments 0 0 w
          = (Normal (successCount, failureCount), w1)
       /\ run env w
          = ((if 0 <? failureCount then 1 else 0),
             snd (updateState settings (currentUTCDate (clock env))
                              tournaments successCount w1)).
Proof.
  destruct (OAUTH_TOKEN env) as [token|] eqn:Htoken;
    [| left; unfold run; rewrite main_without_token; auto].
  destruct (String.eqb_spec token "") as [-> | Hne];
    [left; unfold run; rewrite main_without_token; auto |].
  destruct (settingsFile w) as [settings|] eqn:Hsettings;
    [| left; unfold run; rewrite main_without_settings; auto].
  assert (Hinit : initialized env w token settings) by (repeat split; auto).
  assert (Hdec : validTime (clock env) \/ ~ validTime (clock env))
    by (unfold validTime; lia).
  destruct Hdec as [Hclock | Hclock];
    [| left; eapply run_invalid_clock; eauto].
  destruct (String.eqb_spec (lastCreationDate (stateOf w))
                            (currentUTCDate (clock env))) as [Hg | Hg];
    [right; left; eapply run_skipped; eauto |].
  destruct (buildTournaments (now env) (lastTournamentDayNum settings + 1)
                             settings) as [tournaments | e | code] eqn:Hb.
  - right; right.
    destruct (submitLoop_total env token settings (dryRun env) tournaments
                0 0 0 w) as (s & f & w1 & events & Hloop & _).
    exists token, settings, tournaments, s, f, w1.
    split; [exact Hinit |]. split; [exact Hclock |]. split; [exact Hg |].
    split; [exact Hb |]. split; [exact Hloop |].
    now apply (run_submitted w token settings).
  - left. unfold run. rewrite (main_guard env w token settings Hinit Hclock).
    apply String.eqb_neq in Hg. rewrite Hg.
    unfold tryCatch. unfold bind at 1. now rewrite Hb.
  - now apply scheduleLoop_not_exited in Hb.
Qed.

End RunCases.

(* ================================================================== *)
(** * The claims about a run *)
(* ================================================================== *)

(** C1. When the state on disk carries the current UTC date, a run makes
    no submission and leaves the settings and the state as they are: the
    world after the run is the world before it. A run that gets through
    its initialisation (credential present, settings readable) then ends
    with exit code 0. *)
Theorem guard_short_circuits (env : Environment) (w : World)
  (state : TournamentState) :
  validTime (clock env) ->
  stateFile w = Some state ->
  lastCreationDate state = currentUTCDate (clock env) ->
  snd (run env w) = w
  /\ (forall token settings,
        initialized env w token settings -> run env w = (0, w)).
Proof.
  intros Hclock Hstate Htoday.
  assert (Hguard : lastCreationDate (stateOf w) = currentUTCDate (clock env))
    by (unfold stateOf; now rewrite Hstate).
  split.
  - destruct (run_cases env w)
      as [-> | [-> | (token & settings & ts & s & f & w1 & _ & _ & Hopen & _)]];
      try reflexivity.
    contradiction.
  - intros token settings Hinit. now apply (run_skipped env w token settings).
Qed.

Lemma guard_short_circuits_witness :
  run acceptingEnv doneWorld = (0, doneWorld).
Proof.
  refine (proj2 (guard_short_circuits acceptingEnv doneWorld
                   {| lastCreationDate := "2024-02-27" |} _ _ _)
                goodToken sampleSettings _).
  - unfold validTime. simpl. unfold sampleClock, JsDate.maxTime. lia.
  - reflexivity.
  - vm_compute. reflexivity.
  - repeat split. discriminate.
Defined.

(** C2. At the end of a run that went through its submissions (the
    counter of the settings being a safe integer, as is the number it may
    move to): if a submission succeeded, the settings are written with
    [lastTournamentDayNum] at the greatest number of all the definitions
    tried, failed ones too, which is the first number plus 6, and with
    every other field as it was; the state is written with the current
    date; if none succeeded, neither file is written. *)
Theorem finalizing_spec (env : Environment) (w : World) (token : string)
  (settings : TournamentSettings) (tournaments : list Tournament) :
  initialized env w token settings -> validTime (clock env) -> guardOpen env w ->
  safeInteger (lastTournamentDayNum settings) ->
  safeInteger (lastTournamentDayNum settings + 7) ->
  buildTournaments (now env) (lastTournamentDayNum settings + 1) settings
  = Normal tournaments ->
  let startDayNum := lastTournamentDayNum settings + 1 in
  let settings' :=
    {| hostTeamId := hostTeamId settings;
       description := description settings;
       lastTournamentDayNum := startDayNum + 6;
       leadersPerTeam := leadersPerTeam settings;
       dayStartHour := dayStartHour settings;
       nightStartHour := nightStartHour settings;
       tournamentDurationMinutes := tournamentDurationMinutes settings;
       clockTimeMinutes := clockTimeMinutes settings;
       clockIncrementSeconds := clockIncrementSeconds settings;
       rated := rated settings;
       variant := variant settings |} in
  let state' := {| lastCreationDate := currentUTCDate (clock env) |} in
  exists successCount failureCount w1 events,
    submitLoop env token settings (dryRun env) 0 tournaments 0 0 w
    = (Normal (successCount, failureCount), w1)
    /\ journal w1 = (journal w ++ events)%list
    /\ Forall (fun e => isWrite e = false) events
    /\ sameFiles w w1
    /\ In (startDayNum + 6) (map tournament_dayNum tournaments)
    /\ Forall (fun t => tournament_dayNum t <= startDayNum + 6) tournaments
    /\ 0 <= successCount
    /\ successCount + failureCount = 14
    /\ (0 < successCount ->
        snd (run env w)
        = {| settingsFile := Some settings';
             stateFile := Some state';
             journal := journal w1
                        ++ [WroteSettings settings'; WroteState state'] |})
    /\ (successCount = 0 -> snd (run env w) = w1).
Proof.
  intros Hinit Hclock Hguard _ _ Hb startDayNum settings' state'.
  pose proof (Math_max_schedule _ _ _ _ Hb) as Hmax.
  pose proof (buildTournaments_slots _ _ _ _ Hb) as Hslots.
  destruct (submitLoop_total env token settings (dryRun env) tournaments 0 0 0 w)
    as (s & f & w1 & events & Hloop & Hs & _ & Hsum & Hfiles & Hj & Hev).
  exists s, f, w1, events.
  rewrite (run_submitted env w token settings tournaments _ _ w1
             Hinit Hclock Hguard Hb Hloop).
  cbn [snd].
  split; [exact Hloop |]. split; [exact Hj |].
  split; [eapply Forall_impl; [| exact Hev]; now intros e [_ He] |].
  split; [exact Hfiles |].
  split; [rewrite slots_dayNums, Hslots; cbn; tauto |].
  split.
  { apply Forall_forall. intros t Ht.
    assert (Hin : In (tournament_dayNum t) (map tournament_dayNum tournaments))
      by now apply in_map.
    rewrite slots_dayNums, Hslots in Hin. cbn in Hin.
    unfold startDayNum. intuition lia. }
  split; [exact Hs |].
  split.
  { rewrite Hsum, <- (length_map slot), Hslots. reflexivity. }
  split.
  - intros Hpos. now rewrite (updateState_some _ _ _ _ _ _ Hpos Hmax).
  - intros ->. now rewrite updateState_none by lia.
Qed.

(** The partial failure of section 8: ten submissions succeed, four fail,
    and the counter still moves from 4 to 11. *)
Lemma finalizing_spec_witness :
  fst (submitLoop refusingEnv goodToken sampleSettings false 0
                  sampleTournaments 0 0 freshWorld)
  = Normal (10, 4)
  /\ option_map lastTournamentDayNum (settingsFile (snd (run refusingEnv freshWorld)))
     = Some 11
  /\ stateFile (snd (run refusingEnv freshWorld))
     = Some {| lastCreationDate := "2024-02-27" |}.
Proof.
  assert (Hb : buildTournaments (now refusingEnv)
                 (lastTournamentDayNum sampleSettings + 1) sampleSettings
               = Normal sampleTournaments) by (vm_compute; reflexivity).
  destruct (finalizing_spec refusingEnv freshWorld goodToken sampleSettings
              sampleTournaments)
    as (s & f & w1 & events & Hloop & _ & _ & _ & _ & _ & _ & _ & Hpos & _).
  - repeat split. discriminate.
  - unfold validTime. simpl. unfold sampleClock, JsDate.maxTime. lia.
  - unfold guardOpen. vm_compute. discriminate.
  - unfold safeInteger. simpl. lia.
  - unfold safeInteger. simpl. lia.
  - exact Hb.
  - assert (E : fst (submitLoop refusingEnv goodToken sampleSettings false 0
                                sampleTournaments 0 0 freshWorld)
                = Normal (10, 4)) by (vm_compute; reflexivity).
    assert (Hs : s = 10).
    { change (dryRun refusingEnv) with false in Hloop.
      rewrite Hloop in E. now injection E. }
    split; [exact E |].
    rewrite Hpos by lia. split; vm_compute; reflexivity.
Defined.

(** C6. The exit code of a run is 0 or 1. It is 1 when the credential
    is missing or the settings cannot be read. A run that gets through its
    initialisation ends with 0 when the guard skips it, and after its
    submissions it ends with 0 exactly when the count of failures is 0,
    with 1 when a submission failed. *)
Theorem exit_code_spec (env : Environment) (w : World) :
  (fst (run env w) = 0 \/ fst (run env w) = 1)
  /\ (OAUTH_TOKEN env = None \/ OAUTH_TOKEN env = Some ""
      \/ settingsFile w = None ->
      fst (run env w) = 1)
  /\ (forall token settings,
        initialized env w token settings -> validTime (clock env) ->
        lastCreationDate (stateOf w) = currentUTCDate (clock env) ->
        fst (run env w) = 0)
  /\ (forall token settings tournaments,
        initialized env w token settings -> validTime (clock env) ->
        guardOpen env w ->
        buildTournaments (now env) (lastTournamentDayNum settings + 1) settings
        = Normal tournaments ->
        exists successCount failureCount w1,
          submitLoop env token settings (dryRun env) 0 tournaments 0 0 w
          = (Normal (successCount, failureCount), w1)
          /\ 0 <= failureCount
          /\ (fst (run env w) = 0 <-> failureCount = 0)
          /\ (0 < failureCount -> fst (run env w) = 1)).
Proof.
  split; [| split; [| split]].
  - destruct (run_cases env w)
      as [-> | [-> | (token & settings & ts & s & f & w1 & _ & _ & _ & _ & _ & ->)]];
      cbn [fst]; auto.
    destruct (0 <? f); auto.
  - intros [H | [H | H]]; unfold run.
    + rewrite main_without_token; auto.
    + rewrite main_without_token; auto.
    + rewrite main_without_settings; auto.
  - intros token settings Hinit Hclock Hguard.
    now rewrite (run_skipped env w token settings).
  - intros token settings ts Hinit Hclock Hguard Hb.
    destruct (submitLoop_total env token settings (dryRun env) ts 0 0 0 w)
      as (s & f & w1 & events & Hloop & _ & Hf & _).
    exists s, f, w1.
    rewrite (run_submitted env w token settings ts _ _ w1
               Hinit Hclock Hguard Hb Hloop).
    cbn [fst]. split; [exact Hloop |]. split; [exact Hf |].
    destruct (Z.ltb_spec 0 f); split; try split; intros; try lia; auto.
Qed.

Lemma exit_code_spec_witness :
  fst (submitLoop refusingEnv goodToken sampleSettings false 0
                  sampleTournaments 0 0 freshWorld)
  = Normal (10, 4)
  /\ fst (run refusingEnv freshWorld) = 1
  /\ fst (run noTokenEnv freshWorld) = 1.
Proof.
  pose proof (exit_code_spec refusingEnv freshWorld) as (_ & _ & _ & H).
  destruct (H goodToken sampleSettings sampleTournaments)
    as (s & f & w1 & Hloop & _ & _ & H1).
  - repeat split. discriminate.
  - unfold validTime. simpl. unfold sampleClock, JsDate.maxTime. lia.
  - unfold guardOpen. vm_compute. discriminate.
  - vm_compute. reflexivity.
  - assert (E : fst (submitLoop refusingEnv goodToken sampleSettings false 0
                                sampleTournaments 0 0 freshWorld)
                = Normal (10, 4)) by (vm_compute; reflexivity).
    assert (Hf : f = 4).
    { change (dryRun refusingEnv) with false in Hloop.
      rewrite Hloop in E. now injection E. }
    split; [exact E |]. split; [apply H1; lia |].
    apply (proj1 (proj2 (exit_code_spec noTokenEnv freshWorld))).
    left. reflexivity.
Defined.

(** C9. The orchestrator hands the client the host team alone as the
    list of teams, and the client leaves the host team (and empty names)
    out of the invited teams; so no request body, sent or prepared for a
    dry run, has a [teams[]] entry, and everything a run sends invites
    nobody. *)
Theorem no_team_invited :
  (forall oauthToken settings dry tournament,
      let params := submissionParams oauthToken settings dry tournament in
      params_teams params = [hostTeamId settings]
      /\ invitedTeams params = []
      /\ teamsEntries (requestBody params) = [])
  /\ (forall params, ~ In (params_hostTeamId params) (invitedTeams params))
  /\ (forall env w, exists events,
        journal (snd (run env w)) = (journal w ++ events)%list
        /\ Forall invitesNobody events).
Proof.
  split; [| split].
  - intros oauthToken settings dry tournament params.
    assert (H : invitedTeams params = [])
      by now apply invitedTeams_host_only.
    split; [reflexivity |]. split; [exact H |].
    now rewrite teamsEntries_requestBody, H.
  - intros params Hin. unfold invitedTeams in Hin.
    apply filter_In in Hin as [_ H].
    rewrite String.eqb_refl in H. now rewrite andb_false_r in H.
  - intros env w.
    destruct (run_cases env w)
      as [-> | [-> | (token & settings & ts & s & f & w1 & _ & _ & _ & Hb & Hloop & ->)]].
    + exists []. cbn [snd]. now rewrite app_nil_r.
    + exists []. cbn [snd]. now rewrite app_nil_r.
    + destruct (submitLoop_total env token settings (dryRun env) ts 0 0 0 w)
        as (s' & f' & w' & events & Hloop' & _ & _ & _ & _ & Hj & Hev).
      rewrite Hloop in Hloop'. injection Hloop' as <- <- <-.
      assert (Hquiet : Forall invitesNobody events)
        by (eapply Forall_impl; [| exact Hev]; now intros e [He _]).
      cbn [snd]. unfold updateState.
      destruct (0 <? s); [| now exists events].
      destruct (Math_max _) as [maxDayNum|]; [| now exists events].
      unfold bind. cbn.
      exists (events ++ [WroteSettings (setLastTournamentDayNum settings maxDayNum);
                         WroteState {| lastCreationDate :=
                                         currentUTCDate (clock env) |}])%list.
      rewrite Hj, <- !app_assoc. split; [reflexivity |].
      apply Forall_app. split; [exact Hquiet |]. repeat constructor.
Qed.

(** C10. The credential is validated before the dry-run branch: with a
    token that fails validation the client answers [ok:false] whether
    [dryRun] is set or not and touches nothing. A run with such a token
    (one that is present, so that initialisation succeeds) therefore
    counts 14 failures and no success, only pauses, writes nothing and
    ends with exit code 1; so does a dry run. *)
Theorem invalid_token_fails_every_submission (env : Environment) (w : World)
  (token : string) (settings : TournamentSettings) :
  validateOAuthToken token = false ->
  (forall params w',
      params_token params = token ->
      createTeamBattle env params w' = (Normal invalidTokenResult, w')
      /\ result_ok invalidTokenResult = false)
  /\ (initialized env w token settings ->
      validTime (clock env) ->
      clock env + 7 * JsDate.msPerDay <= JsDate.maxTime ->
      validHours settings ->
      guardOpen env w ->
      exists tournaments,
        buildTournaments (now env) (lastTournamentDayNum settings + 1) settings
        = Normal tournaments
        /\ submitLoop env token settings (dryRun env) 0 tournaments 0 0 w
           = (Normal (0, 14), afterPauses 13 w)
        /\ run env w = (1, afterPauses 13 w)).
Proof.
  intros Hbad. split.
  - intros params w' <-. split; [| reflexivity].
    now apply createTeamBattle_invalid.
  - intros Hinit Hclock Hweek Hhours Hguard.
    destruct (buildTournaments_total (clock env)
                (lastTournamentDayNum settings + 1) settings Hclock Hweek Hhours)
      as [ts Hb].
    fold (now env) in Hb.
    assert (Hlen : List.length ts = 14%nat)
      by (rewrite <- (length_map slot), (buildTournaments_slots _ _ _ _ Hb);
          reflexivity).
    assert (Hloop : submitLoop env token settings (dryRun env) 0 ts 0 0 w
                    = (Normal (0, 14), afterPauses 13 w)).
    { destruct (submitLoop_quiet env token settings (dryRun env) ts) with
        (i := 0) (successCount := 0) (failureCount := 0) (w := w)
        as [[s f] Hq]; [| lia |].
      - intros t w'. exists invalidTokenResult.
        now apply createTeamBattle_invalid.
      - rewrite Hlen in Hq. cbn [pausesFrom Z.ltb Z.compare pred] in Hq.
        assert (Hall : forall t w0 r w0',
                   createTeamBattle env
                     (submissionParams token settings (dryRun env) t) w0
                   = (Normal r, w0') -> result_ok r = false).
        { intros t w0 r w0' H.
          rewrite createTeamBattle_invalid in H by exact Hbad.
          now injection H as <- _. }
        pose proof (submitLoop_counts env token settings (dryRun env) false ts
                      Hall _ _ _ _ _ _ _ Hq) as Hc.
        rewrite Hlen in Hc. injection Hc as -> ->.
        exact Hq. }
    exists ts. split; [exact Hb |]. split; [exact Hloop |].
    rewrite (run_submitted env w token settings ts _ _ _
               Hinit Hclock Hguard Hb Hloop).
    now rewrite updateState_none by lia.
Qed.

Lemma invalid_token_fails_every_submission_witness :
  dryRun dummyDryRunEnv = true
  /\ run dummyDryRunEnv freshWorld = (1, afterPauses 13 freshWorld).
Proof.
  split; [reflexivity |].
  destruct (proj2 (invalid_token_fails_every_submission dummyDryRunEnv
                     freshWorld "dummy"
                     sampleSettings eq_refl))
    as (ts & _ & _ & Hrun).
  - repeat split. discriminate.
  - unfold validTime. simpl. unfold sampleClock, JsDate.maxTime. lia.
  - simpl. unfold sampleClock, JsDate.msPerDay, JsDate.maxTime. lia.
  - unfold validHours. simpl. lia.
  - unfold guardOpen. vm_compute. discriminate.
  - exact Hrun.
Defined.

Lemma createTeamBattle_contains_faults_witness :
  fst (createTeamBattle offlineEnv firstParams freshWorld)
  = Normal {| result_ok := false; result_url := None;
              result_error :=
                Some "FetchError: request to https://lichess.org/api/tournament failed" |}.
Proof.
  destruct (createTeamBattle_contains_faults offlineEnv firstParams freshWorld)
    as (_ & _ & H).
  destruct (H eq_refl eq_refl) as (_ & Hrej & _).
  rewrite (Hrej "FetchError: request to https://lichess.org/api/tournament failed"
             eq_refl).
  reflexivity.
Defined.

(** C4, as the specification states it, fails: a dry run whose credential
    does not pass validation (here the placeholder ["dummy"]) gets
    [ok:false] for its submission, and the run updates neither file and
    ends with exit code 1. *)
Lemma dry_run_with_dummy_token_fails :
  params_dryRun dummyParams = true
  /\ createTeamBattle dummyDryRunEnv dummyParams freshWorld
     = (Normal {| result_ok := false;
                  result_url := None;
                  result_error := Some "Invalid or missing OAuth token. Please set a valid OAUTH_TOKEN environment variable." |},
        freshWorld)
  /\ OAUTH_TOKEN dummyDryRunEnv = Some "dummy"
  /\ dryRun dummyDryRunEnv = true
  /\ run dummyDryRunEnv freshWorld = (1, afterPauses 13 freshWorld).
Proof. repeat split; vm_compute; reflexivity. Qed.

(** C4, amended. With dry-run enabled and a credential that passes
    validation, the client makes no network call and answers every
    submission with [ok:true] and the URL [<server>/team/<host>/arena/pending];
    the run then only pauses between submissions, ends with exit code 0,
    and writes the settings and the state that a real run in which the
    server accepts every request writes. *)
Theorem dry_run_spec (env : Environment) (w : World) (token : string)
  (settings : TournamentSettings) :
  validateOAuthToken token = true ->
  dryRun env = true ->
  (forall params w',
      params_token params = token -> params_dryRun params = true ->
      createTeamBattle env params w'
      = (Normal {| result_ok := true;
                   result_url := Some (params_server params ++ "/team/"
                                       ++ params_hostTeamId params
                                       ++ "/arena/pending");
                   result_error := None |}, w'))
  /\ (initialized env w token settings ->
      validTime (clock env) ->
      clock env + 7 * JsDate.msPerDay <= JsDate.maxTime ->
      validHours settings ->
      guardOpen env w ->
      let settings' :=
        setLastTournamentDayNum settings (lastTournamentDayNum settings + 1 + 6) in
      let state' := {| lastCreationDate := currentUTCDate (clock env) |} in
      run env w
      = (0, {| settingsFile := Some settings';
               stateFile := Some state';
               journal := journal w ++ repeat (Slept 10000) 13
                          ++ [WroteSettings settings'; WroteState state'] |})
      /\ forall real,
           OAUTH_TOKEN real = Some token -> dryRun real = false ->
           clock real = clock env -> serverAccepts real ->
           fst (run real w) = 0
           /\ settingsFile (snd (run real w)) = Some settings'
           /\ stateFile (snd (run real w)) = Some state').
Proof.
  intros Hgood Hdry. split.
  - intros params w' <- Hd. now apply createTeamBattle_dryRun.
  - intros Hinit Hclock Hweek Hhours Hguard settings' state'.
    destruct (buildTournaments_total (clock env)
                (lastTournamentDayNum settings + 1) settings Hclock Hweek Hhours)
      as [ts Hb].
    fold (now env) in Hb.
    assert (Hlen : List.length ts = 14%nat)
      by (rewrite <- (length_map slot), (buildTournaments_slots _ _ _ _ Hb);
          reflexivity).
    pose proof (Math_max_schedule _ _ _ _ Hb) as Hmax.
    split.
    + assert (Hloop : submitLoop env token settings (dryRun env) 0 ts 0 0 w
                      = (Normal (14, 0), afterPauses 13 w)).
      { destruct (submitLoop_quiet env token settings (dryRun env) ts) with
          (i := 0) (successCount := 0) (failureCount := 0) (w := w)
          as [[s f] Hq]; [| lia |].
        - intros t w'. eexists. apply createTeamBattle_dryRun; [exact Hgood |].
          exact Hdry.
        - rewrite Hlen in Hq. cbn [pausesFrom Z.ltb Z.compare pred] in Hq.
          assert (Hall : forall t w0 r w0',
                     createTeamBattle env
                       (submissionParams token settings (dryRun env) t) w0
                     = (Normal r, w0') -> result_ok r = true).
          { intros t w0 r w0' H.
            rewrite createTeamBattle_dryRun in H by (exact Hgood || exact Hdry).
            now injection H as <- _. }
          pose proof (submitLoop_counts env token settings (dryRun env) true ts
                        Hall _ _ _ _ _ _ _ Hq) as Hc.
          rewrite Hlen in Hc. injection Hc as -> ->. exact Hq. }
      rewrite (run_submitted env w token settings ts _ _ _
                 Hinit Hclock Hguard Hb Hloop).
      rewrite (updateState_some _ _ _ 14 _ _ eq_refl Hmax).
      cbn [snd afterPauses journal settingsFile stateFile].
      now rewrite <- app_assoc.
    + intros real Htoken Hreal Hsame Hnet.
      destruct Hinit as (_ & Hne & Hsettings).
      assert (Hinit' : initialized real w token settings) by (repeat split; auto).
      assert (Hclock' : validTime (clock real)) by now rewrite Hsame.
      assert (Hguard' : guardOpen real w)
        by (unfold guardOpen; now rewrite Hsame).
      assert (Hb' : buildTournaments (now real)
                      (lastTournamentDayNum settings + 1) settings = Normal ts)
        by (unfold now in *; now rewrite Hsame).
      destruct (submitLoop_total real token settings (dryRun real) ts 0 0 0 w)
        as (s & f & w1 & events & Hloop & _ & _ & _ & _ & _ & _).
      assert (Hall : forall t w0 r w0',
                 createTeamBattle real
                   (submissionParams token settings (dryRun real) t) w0
                 = (Normal r, w0') -> result_ok r = true).
      { intros t w0 r w0' H.
        apply (createTeamBattle_accepted real
                 (submissionParams token settings (dryRun real) t) w0 r w0' Hnet);
          [exact Hgood | exact Hreal | exact H]. }
      pose proof (submitLoop_counts real token settings (dryRun real) true ts
                    Hall _ _ _ _ _ _ _ Hloop) as Hc.
      rewrite Hlen in Hc. injection Hc as -> ->.
      rewrite (run_submitted real w token settings ts _ _ _
                 Hinit' Hclock' Hguard' Hb' Hloop).
      rewrite (updateState_some _ _ _ 14 _ _ eq_refl Hmax).
      cbn [fst snd settingsFile stateFile]. unfold state'.
      now rewrite Hsame.
Qed.

Lemma dry_run_spec_witness :
  fst (run dryRunEnv freshWorld) = 0
  /\ settingsFile (snd (run dryRunEnv freshWorld))
     = Some (setLastTournamentDayNum sampleSettings 11)
  /\ filter isFetch (journal (snd (run dryRunEnv freshWorld))) = [].
Proof.
  destruct (proj2 (dry_run_spec dryRunEnv freshWorld goodToken sampleSettings
                     eq_refl eq_refl)) as [Hrun _].
  - repeat split. discriminate.
  - unfold validTime. simpl. unfold sampleClock, JsDate.maxTime. lia.
  - simpl. unfold sampleClock, JsDate.msPerDay, JsDate.maxTime. lia.
  - unfold validHours. simpl. lia.
  - unfold guardOpen. vm_compute. discriminate.
  - rewrite Hrun. repeat split.
Defined.

(* ================================================================== *)
(** * The model at work *)
(* ================================================================== *)

Example toISOString_sampleClock :
  JsDate.toISOString (JsDate.newDate (Some sampleClock))
  = Normal "2024-02-27T15:30:00.123Z".
Proof. reflexivity. Qed.

Example toISOString_first_and_last :
  JsDate.toISOString (JsDate.newDate (Some (- JsDate.maxTime)))
  = Normal "-271821-04-20T00:00:00.000Z"
  /\ JsDate.toISOString (JsDate.newDate (Some JsDate.maxTime))
     = Normal "+275760-09-13T00:00:00.000Z"
  /\ JsDate.toISOString (JsDate.newDate (Some (JsDate.maxTime + 1)))
     = Thrown "RangeError: Invalid time value".
Proof. repeat split. Qed.

(** The sample week runs over the leap day of 2024. *)
Example sampleTournaments_starts :
  map tournament_startDateISO sampleTournaments
  = [ "2024-02-27T10:00:00.000Z"; "2024-02-27T22:00:00.000Z";
      "2024-02-28T10:00:00.000Z"; "2024-02-28T22:00:00.000Z";
      "2024-02-29T10:00:00.000Z"; "2024-02-29T22:00:00.000Z";
      "2024-03-01T10:00:00.000Z"; "2024-03-01T22:00:00.000Z";
      "2024-03-02T10:00:00.000Z"; "2024-03-02T22:00:00.000Z";
      "2024-03-03T10:00:00.000Z"; "2024-03-03T22:00:00.000Z";
      "2024-03-04T10:00:00.000Z"; "2024-03-04T22:00:00.000Z" ].
Proof. reflexivity. Qed.

Example sampleTournaments_names :
  map tournament_name (firstn 3 sampleTournaments)
  = [ "LMAO Day '5'"; "LMAO Night '5'"; "LMAO Day '6'" ].
Proof. reflexivity. Qed.

(** [Date.UTC] reads a year from 0 to 99 as one of the twentieth
    century. *)
Example createTournamentDate_two_digit_year :
  createTournamentDate (Some 24) (Some 12) (Some 31) (Some 22) (Some 0)
  = Normal "1924-12-31T22:00:00.000Z".
Proof. reflexivity. Qed.

(** The week of a schedule has to fit before the last instant of the
    calendar, 13 September 275760. *)
Example buildTournaments_at_the_end_of_time :
  buildTournaments (JsDate.newDate (Some JsDate.maxTime)) 5 sampleSettings
  = Thrown "RangeError: Invalid time value".
Proof. reflexivity. Qed.

Example replace_dollar_patterns :
  JsString.replace "x" "[$&$$$`$'$1]" "abxcd" = "ab[x$abcd$1]cd".
Proof. reflexivity. Qed.

(** Twenty letters and digits are not enough when they spell a marker. *)
Example validateOAuthToken_marker_in_letters :
  validateOAuthToken "PLACEHOLDER123456789" = false.
Proof. reflexivity. Qed.

(** A created tournament is reported under its id; without an id the
    [Location] header serves, and without both the word [unknown]. *)
Example createTeamBattle_created :
  fst (createTeamBattle acceptingEnv firstParams freshWorld)
  = Normal {| result_ok := true;
              result_url := Some "https://lichess.org/tournament/AbCd1234";
              result_error := None |}.
Proof. reflexivity. Qed.

Example createTeamBattle_refused :
  fst (createTeamBattle
         (sampleEnv (Some goodToken) None (fun _ _ => Resolved tooManyRequests))
         firstParams freshWorld)
  = Normal {| result_ok := false;
              result_url := None;
              result_error := Some "429: Too many requests" |}.
Proof. reflexivity. Qed.

(** The body of the first request of the sample week. *)
Example requestBody_sample :
  requestBody firstParams
  = [ ("name", "LMAO Day '5'");
      ("description", "Battle Day #5");
      ("clockTime", "3");
      ("clockIncrement", "0");
      ("minutes", "90");
      ("rated", "true");
      ("variant", "standard");
      ("startDate", "2024-02-27T10:00:00.000Z");
      ("teamBattleByTeam", "lmao-teamfights") ].
Proof. reflexivity. Qed.

(** A full real run of the sample week: fourteen requests, thirteen
    pauses, two writes. *)
Example run_accepting :
  let r := run acceptingEnv freshWorld in
  fst r = 0
  /\ List.length (filter isFetch (journal (snd r))) = 14%nat
  /\ List.length (filter (fun e => match e with Slept _ => true | _ => false end)
                         (journal (snd r))) = 13%nat
  /\ List.length (filter isWrite (journal (snd r))) = 2%nat
  /\ stateFile (snd r) = Some {| lastCreationDate := "2024-02-27" |}.
Proof. vm_compute. repeat split. Qed.

(* ================================================================== *)
(** * Further properties: the schedule in full *)
(* ================================================================== *)

Module ScheduleFacts.
Import JsDate JsDateFacts.

(** A day lies in one year only. *)
Lemma YearFromTime_unique (t y : Z) :
  DayFromYear y <= Day t < DayFromYear (y + 1) -> YearFromTime t = y.
Proof.
  intros Hy. pose proof (YearFromTime_spec t) as Ht.
  set (y' := YearFromTime t) in *. set (d := Day t) in *. clearbody y' d.
  unfold DayFromYear in *. div_lia.
Qed.

Lemma same_day_year (t t' : Z) :
  Day t' = Day t -> YearFromTime t' = YearFromTime t.
Proof.
  intros H. apply YearFromTime_unique. rewrite H. apply YearFromTime_spec.
Qed.

Lemma same_day_month (t t' : Z) :
  Day t' = Day t -> MonthFromTime t' = MonthFromTime t.
Proof.
  intros H. unfold MonthFromTime, DayWithinYear, InLeapYear.
  now rewrite (same_day_year t t' H), H.
Qed.

Lemma same_day_date (t t' : Z) :
  Day t' = Day t -> DateFromTime t' = DateFromTime t.
Proof.
  intros H. unfold DateFromTime, DayWithinYear, InLeapYear.
  now rewrite (same_day_month t t' H), (same_day_year t t' H), H.
Qed.

Lemma year_from_100 (t : Z) : TimeFromYear 100 <= t -> 100 <= YearFromTime t.
Proof.
  intros H. pose proof (YearFromTime_spec t) as [_ Ht].
  assert (Hd : DayFromYear 100 <= Day t)
    by (unfold TimeFromYear, Day, msPerDay in *; div_lia).
  set (y := YearFromTime t) in *. set (d := Day t) in *. clearbody y d.
  unfold DayFromYear in *. div_lia.
Qed.

(** The start of a tournament: [hour] o'clock sharp on the day of [t]. *)
Lemma createTournamentDate_on_day (t hour : Z) :
  TimeFromYear 100 <= t -> - maxTime <= t -> t + msPerDay <= maxTime ->
  0 <= hour <= 23 ->
  createTournamentDate (getUTCFullYear (Some t))
    (num_add (getUTCMonth (Some t)) (Some 1)) (getUTCDate (Some t))
    (Some hour) (Some 0)
  = Normal (currentUTCDate t ++ "T" ++ JsString.padZero 2 hour ++ ":00:00.000Z").
Proof.
  intros Hy Hlo Hhi Hh.
  pose proof (year_from_100 t Hy) as Hyear.
  unfold createTournamentDate, UTC, getUTCFullYear, getUTCMonth, getUTCDate,
         num_add, num_sub, option_map.
  replace (MonthFromTime t + 1 - 1) with (MonthFromTime t) by lia.
  unfold MakeFullYear.
  replace ((0 <=? YearFromTime t) && (YearFromTime t <=? 99)) with false
    by (symmetry; apply andb_false_iff; right; apply Z.leb_gt; lia).
  rewrite MakeDay_same_month.
  replace (Day t + DateFromTime t - DateFromTime t) with (Day t) by lia.
  set (tv := MakeDate (Day t) (MakeTime hour 0 0 0)).
  assert (Hday : Day tv = Day t)
    by (unfold tv, MakeDate, MakeTime, Day, msPerDay, msPerHour, msPerMinute,
               msPerSecond; div_lia).
  assert (Htv : Z.abs tv <= maxTime)
    by (unfold tv, MakeDate, MakeTime, Day, maxTime, msPerDay, msPerHour,
               msPerMinute, msPerSecond in *; div_lia).
  rewrite TimeClip_valid by exact Htv.
  unfold newDate. rewrite TimeClip_valid by exact Htv.
  unfold toISOString. f_equal.
  rewrite (same_day_year t tv Hday), (same_day_month t tv Hday),
          (same_day_date t tv Hday).
  replace (HourFromTime tv) with hour
    by (unfold tv, HourFromTime, MakeDate, MakeTime, msPerDay, msPerHour,
               msPerMinute, msPerSecond; div_lia).
  replace (MinFromTime tv) with 0
    by (unfold tv, MinFromTime, MakeDate, MakeTime, msPerDay, msPerHour,
               msPerMinute, msPerSecond; div_lia).
  replace (SecFromTime tv) with 0
    by (unfold tv, SecFromTime, MakeDate, MakeTime, msPerDay, msPerHour,
               msPerMinute, msPerSecond; div_lia).
  replace (msFromTime tv) with 0
    by (unfold tv, msFromTime, MakeDate, MakeTime, msPerDay, msPerHour,
               msPerMinute, msPerSecond; div_lia).
  unfold currentUTCDate.
  change (JsString.padZero 2 0) with "00".
  change (JsString.padZero 3 0) with "000".
  now rewrite !JsStringFacts.append_assoc.
Qed.

End ScheduleFacts.

Lemma buildDescription_replaceFirst (dayNum : Z) (type : TournamentType)
  (template : string) :
  buildDescription dayNum type template
  = replaceFirstOccurrence "{DAY_NUM}" (JsString.ofNumber dayNum)
      (replaceFirstOccurrence "{TYPE}" (typeLabel type) template).
Proof.
  unfold buildDescription.
  rewrite (replace_plain "{TYPE}") by apply typeLabel_plain.
  now rewrite replace_plain by apply JsStringFacts.ofNumber_plain.
Qed.

Lemma scheduleLoop_explicit (t nextDayNum : Z) (settings : TournamentSettings)
  (offsets : list Z) :
  validTime t -> JsDate.TimeFromYear 100 <= t ->
  t + 7 * JsDate.msPerDay <= JsDate.maxTime ->
  validHours settings ->
  Forall (fun dayOffset => 0 <= dayOffset <= 6) offsets ->
  forall acc,
    scheduleLoop (Some t) nextDayNum settings offsets acc
    = Normal (acc ++ scheduledDays t nextDayNum settings offsets)%list.
Proof.
  intros Ht Hy Hweek [Hday Hnight] Hoff.
  induction Hoff as [|dayOffset rest Hd _ IH]; intros acc.
  - cbn. now rewrite app_nil_r.
  - cbn [scheduleLoop]. unfold JsDate.copy.
    rewrite JsDateFacts.setUTCDate_add.
    assert (Hrange : JsDate.TimeFromYear 100 <= t + dayOffset * JsDate.msPerDay
                     /\ - JsDate.maxTime <= t + dayOffset * JsDate.msPerDay
                     /\ t + dayOffset * JsDate.msPerDay + JsDate.msPerDay
                        <= JsDate.maxTime)
      by (unfold validTime, JsDate.msPerDay in *; lia).
    rewrite JsDateFacts.TimeClip_valid by (unfold JsDate.msPerDay in *; lia).
    destruct Hrange as (Hy' & Hlo & Hhi).
    rewrite (ScheduleFacts.createTournamentDate_on_day _ _ Hy' Hlo Hhi Hday).
    rewrite (ScheduleFacts.createTournamentDate_on_day _ _ Hy' Hlo Hhi Hnight).
    cbn [andThen]. rewrite IH. unfold push.
    cbn [scheduledDays flat_map]. rewrite <- !app_assoc.
    unfold scheduledTournament. rewrite <- !buildDescription_replaceFirst.
    reflexivity.
Qed.

(** X1. For a clock from the year 100 on whose next week is still within
    the range of [Date], hours of a day and numbers that are safe
    integers, the schedule is exactly this:
    for each of the seven days from today on, a Day and then a Night
    tournament, numbered from [nextDayNum], named [LMAO <type> '<number>'],
    described by the template with its first [{TYPE}] and its first
    [{DAY_NUM}] replaced, and starting on that UTC calendar day at the
    configured hour sharp. *)
Theorem schedule_explicit (t nextDayNum : Z) (settings : TournamentSettings) :
  validTime t -> JsDate.TimeFromYear 100 <= t ->
  t + 7 * JsDate.msPerDay <= JsDate.maxTime ->
  validHours settings ->
  safeInteger nextDayNum -> safeInteger (nextDayNum + 6) ->
  buildTournaments (JsDate.newDate (Some t)) nextDayNum settings
  = Normal (scheduledDays t nextDayNum settings [0; 1; 2; 3; 4; 5; 6]).
Proof.
  intros Ht Hy Hweek Hh _ _. unfold buildTournaments, JsDate.newDate.
  rewrite JsDateFacts.TimeClip_valid by (unfold validTime in Ht; lia).
  rewrite (scheduleLoop_explicit t nextDayNum settings dayOffsets Ht Hy Hweek Hh).
  - reflexivity.
  - unfold dayOffsets. repeat constructor; lia.
Qed.

(** The last tournament of the sample week: the night of 4 March, after
    a leap day. *)
Lemma schedule_explicit_witness :
  exists tournaments,
    buildTournaments (JsDate.newDate (Some sampleClock)) 5 sampleSettings
    = Normal tournaments
    /\ last tournaments (hd_tournament [])
       = {| tournament_name := "LMAO Night '11'";
            tournament_description := "Battle Night #11";
            tournament_startDateISO := "2024-03-04T22:00:00.000Z";
            tournament_dayNum := 11;
            tournament_type := Night |}.
Proof.
  eexists. split.
  - apply (schedule_explicit sampleClock 5 sampleSettings).
    + unfold validTime, sampleClock, JsDate.maxTime. lia.
    + vm_compute. discriminate.
    + unfold sampleClock, JsDate.msPerDay, JsDate.maxTime. lia.
    + unfold validHours. simpl. lia.
    + unfold safeInteger. lia.
    + unfold safeInteger. lia.
  - vm_compute. reflexivity.
Defined.

(* ================================================================== *)
(** * Further properties: names and tokens *)
(* ================================================================== *)

Lemma ofNumber_nilEmpty (n : Z) :
  JsString.ofNumber n = NilEmpty.string_of_int (Z.to_int n).
Proof.
  unfold JsString.ofNumber.
  destruct n as [|p|p]; [reflexivity | |]; cbn;
    unfold NilZero.string_of_uint;
    pose proof (DecimalPos.Unsigned.to_uint_nonnil p);
    now destruct (Pos.to_uint p).
Qed.

(** Different numbers have different decimal strings. *)
Lemma ofNumber_inj (n m : Z) : JsString.ofNumber n = JsString.ofNumber m -> n = m.
Proof.
  rewrite !ofNumber_nilEmpty. intros H.
  apply DecimalZ.to_int_inj.
  pose proof (NilEmpty.isi (Z.to_int n)) as Hn.
  rewrite H, NilEmpty.isi in Hn. now injection Hn.
Qed.

Lemma append_inj_l (a b c : string) : a ++ c = b ++ c -> a = b.
Proof.
  revert b; induction a as [|x a IH]; intros [|y b] H; simpl in H.
  - reflexivity.
  - exfalso. apply (f_equal String.length) in H. simpl in H.
    rewrite JsStringFacts.length_append in H. lia.
  - exfalso. apply (f_equal String.length) in H. simpl in H.
    rewrite JsStringFacts.length_append in H. lia.
  - injection H as -> H. f_equal. now apply IH.
Qed.

(** A name tells the number and the type of its tournament. *)
Lemma buildTournamentName_inj (dayNum dayNum' : Z) (type type' : TournamentType) :
  buildTournamentName dayNum type = buildTournamentName dayNum' type' ->
  dayNum = dayNum' /\ type = type'.
Proof.
  unfold buildTournamentName.
  destruct type, type'; cbn; intros H; try discriminate;
    injection H as H; split; try reflexivity;
    apply ofNumber_inj; now apply (append_inj_l _ _ "'").
Qed.

(** Every entry of a schedule carries the name and the description the
    formatters give for its number and type. *)
Lemma scheduleLoop_formatted (now : JsDate.Date) (nextDayNum : Z)
  (settings : TournamentSettings) (offsets : list Z) :
  forall acc tournaments,
    Forall (formatted settings) acc ->
    scheduleLoop now nextDayNum settings offsets acc = Normal tournaments ->
    Forall (formatted settings) tournaments.
Proof.
  induction offsets as [|dayOffset rest IH]; intros acc tournaments Hacc H.
  - now injection H as <-.
  - cbn [scheduleLoop] in H.
    destruct (createTournamentDate _ _ _ (Some (dayStartHour settings)) _)
      as [dayStart | |]; cbn [andThen] in H; try discriminate.
    destruct (createTournamentDate _ _ _ (Some (nightStartHour settings)) _)
      as [nightStart | |]; cbn [andThen] in H; try discriminate.
    apply IH in H; [exact H |]. unfold push.
    rewrite !Forall_app. repeat split; auto; repeat constructor.
Qed.

Lemma slots_NoDup (nextDayNum : Z) :
  NoDup [ (nextDayNum, Day); (nextDayNum, Night);
          (nextDayNum + 1, Day); (nextDayNum + 1, Night);
          (nextDayNum + 2, Day); (nextDayNum + 2, Night);
          (nextDayNum + 3, Day); (nextDayNum + 3, Night);
          (nextDayNum + 4, Day); (nextDayNum + 4, Night);
          (nextDayNum + 5, Day); (nextDayNum + 5, Night);
          (nextDayNum + 6, Day); (nextDayNum + 6, Night) ].
Proof.
  repeat (constructor;
          [ cbn [In]; intros H;
            repeat (destruct H as [H | H];
                    [ injection H; intros; try discriminate; lia |]);
            exact H |]).
  constructor.
Qed.

(** X2. A tournament name tells its number and its type, so the fourteen
    names of a schedule, numbered with safe integers, are pairwise
    different. *)
Theorem schedule_names_distinct (now : JsDate.Date) (nextDayNum : Z)
  (settings : TournamentSettings) (tournaments : list Tournament) :
  safeInteger nextDayNum -> safeInteger (nextDayNum + 6) ->
  buildTournaments now nextDayNum settings = Normal tournaments ->
  NoDup (map tournament_name tournaments)
  /\ forall a b, In a tournaments -> In b tournaments ->
       tournament_name a = tournament_name b ->
       tournament_dayNum a = tournament_dayNum b
       /\ tournament_type a = tournament_type b.
Proof.
  intros _ _ Hb.
  assert (Hf : Forall (formatted settings) tournaments)
    by (eapply scheduleLoop_formatted; [constructor | exact Hb]).
  assert (Hinj : forall a b, In a tournaments -> In b tournaments ->
            tournament_name a = tournament_name b -> slot a = slot b).
  { intros a b Ha Hb' Hn. rewrite Forall_forall in Hf.
    destruct (Hf a Ha) as [Ea _], (Hf b Hb') as [Eb _].
    rewrite Ea, Eb in Hn. apply buildTournamentName_inj in Hn as [H1 H2].
    unfold slot. now rewrite H1, H2. }
  split.
  - pose proof (buildTournaments_slots _ _ _ _ Hb) as Hs.
    pose proof (slots_NoDup nextDayNum) as Hnd. rewrite <- Hs in Hnd.
    clear Hs Hb Hf. induction tournaments as [|t ts IH]; [constructor |].
    cbn [map] in *. inversion Hnd as [|? ? Hnotin Hrest]; subst.
    constructor.
    + intros Hin. apply in_map_iff in Hin as (b & Hname & Hb).
      apply Hnotin. apply in_map_iff. exists b. split; [| exact Hb].
      apply Hinj; [now right | now left | exact Hname].
    + apply IH; [| exact Hrest].
      intros a b Ha Hb'. apply Hinj; now right.
  - intros a b Ha Hb' Hn. specialize (Hinj a b Ha Hb' Hn).
    unfold slot in Hinj. now injection Hinj.
Qed.

Lemma schedule_names_distinct_witness :
  NoDup (map tournament_name sampleTournaments).
Proof.
  assert (Hb : buildTournaments (JsDate.newDate (Some sampleClock)) 5
                               sampleSettings = Normal sampleTournaments)
    by (vm_compute; reflexivity).
  apply (schedule_names_distinct (JsDate.newDate (Some sampleClock)) 5
           sampleSettings sampleTournaments); [| | exact Hb];
    unfold safeInteger; lia.
Defined.

(** X3. The validator accepts a token exactly when it has more than ten
    characters, every one a letter, a digit, a hyphen or an underscore,
    and holds neither [YOUR_TOKEN] nor [PLACEHOLDER]; the tests for an
    empty token, for white space and for [***] never decide. *)
Theorem validateOAuthToken_iff (token : string) :
  validateOAuthToken token = true
  <-> (10 < String.length token)%nat
      /\ (forall c, In c (list_ascii_of_string token) ->
            isAlphanumeric c = true \/ c = "-"%char \/ c = "_"%char)
      /\ ~ contains "YOUR_TOKEN" token
      /\ ~ contains "PLACEHOLDER" token.
Proof.
  rewrite validateOAuthToken_eq.
  assert (Hclass : JsString.forallb tokenChar token = true
                   <-> forall c, In c (list_ascii_of_string token) ->
                         isAlphanumeric c = true \/ c = "-"%char \/ c = "_"%char).
  { induction token as [|x token IH]; cbn; [tauto |].
    rewrite andb_true_iff, IH, tokenChar_alphanumeric. split.
    - intros [Hx Hall] c [<- | Hin]; [| now apply Hall].
      apply orb_true_iff in Hx as [Hx | Hx];
        [apply orb_true_iff in Hx as [Hx | Hx] |];
        rewrite ?Ascii.eqb_eq in Hx; auto.
    - intros Hall. split; [| intros c Hin; apply Hall; now right].
      destruct (Hall x (or_introl eq_refl)) as [H | [-> | ->]];
        [now rewrite H | reflexivity | reflexivity]. }
  assert (Hinc : forall pat, JsString.includes pat token = false
                             <-> ~ contains pat token).
  { intros pat. split.
    - intros H (pre & post & ->).
      now rewrite JsStringFacts.includes_intro in H.
    - intros H. destruct (JsString.includes pat token) eqn:E; [| reflexivity].
      exfalso. apply H. now apply JsStringFacts.includes_elim. }
  rewrite !andb_true_iff, !negb_true_iff, Hclass, !Hinc, Z.ltb_lt.
  split.
  - intros ((((_ & H2) & H3) & H4) & H5). repeat split; auto. lia.
  - intros (H5 & H4 & H2 & H3). repeat split; auto; [| lia].
    apply Hinc. destruct (JsString.includes "***" token) eqn:E; [| reflexivity].
    exfalso. apply JsStringFacts.includes_elim in E as (pre & post & ->).
    destruct (H4 "*"%char) as [H | [H | H]]; try discriminate.
    rewrite <- (String.string_of_list_ascii_of_string pre) at 1.
    clear. induction (list_ascii_of_string pre) as [|x l IH]; cbn; auto.
Qed.

Lemma validateOAuthToken_iff_witness :
  validateOAuthToken "lip_AbCd-1234_xyz" = true.
Proof.
  apply (proj2 (validateOAuthToken_iff "lip_AbCd-1234_xyz")).
  split; [cbn; lia |]. split; [| split].
  - intros c Hin. cbn in Hin.
    repeat (destruct Hin as [<- | Hin]; [cbn; auto |]). destruct Hin.
  - intros Hc.
    assert (E : JsString.includes "YOUR_TOKEN" "lip_AbCd-1234_xyz" = true)
      by (destruct Hc as (pre & post & ->); apply JsStringFacts.includes_intro).
    discriminate E.
  - intros Hc.
    assert (E : JsString.includes "PLACEHOLDER" "lip_AbCd-1234_xyz" = true)
      by (destruct Hc as (pre & post & ->); apply JsStringFacts.includes_intro).
    discriminate E.
Defined.

(* ================================================================== *)
(** * Further properties: descriptions *)
(* ================================================================== *)

Lemma drop_append (a b : string) : JsString.drop (String.length a) (a ++ b) = b.
Proof. induction a as [|x a IH]; [now destruct b | exact IH]. Qed.

Lemma replaceFirstOccurrence_here (pat rep s : string) :
  replaceFirstOccurrence pat rep (pat ++ s) = rep ++ s.
Proof.
  destruct s as [|c s'] eqn:E, pat as [|x pat'] eqn:Ep; cbn;
    rewrite ?Ascii.eqb_refl, ?JsStringFacts.startsWith_append; cbn;
    rewrite ?drop_append; try reflexivity.
  all: rewrite <- (JsStringFacts.append_nil_r pat') at 2;
    now rewrite drop_append.
Qed.

(** A text in which the first character of [pat] does not occur is
    stepped over. *)
Lemma replaceFirstOccurrence_skip (x : ascii) (pat' rep p s : string) :
  JsString.forallb (fun c => negb (Ascii.eqb c x)) p = true ->
  replaceFirstOccurrence (String x pat') rep (p ++ s)
  = p ++ replaceFirstOccurrence (String x pat') rep s.
Proof.
  induction p as [|c p IH]; [reflexivity |].
  cbn [JsString.forallb]. intros [Hc Hp]%andb_true_iff.
  apply negb_true_iff in Hc.
  change (String c p ++ s) with (String c (p ++ s)).
  cbn [replaceFirstOccurrence JsString.startsWith].
  rewrite Ascii.eqb_sym, Hc. cbn [andb]. now rewrite IH.
Qed.

Lemma braceFree_append (a b : string) :
  braceFree a -> braceFree b -> braceFree (a ++ b).
Proof.
  unfold braceFree. intros Ha Hb.
  now rewrite JsStringFacts.forallb_append, Ha, Hb.
Qed.

Lemma typeLabel_braceFree (type : TournamentType) : braceFree (typeLabel type).
Proof. now destruct type. Qed.

Lemma ofNumber_braceFree (n : Z) : braceFree (JsString.ofNumber n).
Proof.
  unfold braceFree, JsString.ofNumber, NilZero.string_of_int,
         NilZero.string_of_uint.
  assert (H : forall d, JsString.forallb (fun c => negb (Ascii.eqb c "{"))
                          (NilEmpty.string_of_uint d) = true)
    by (induction d; simpl; auto).
  destruct (Z.to_int n) as [d|d]; destruct d; simpl; try reflexivity; apply H.
Qed.

(** X4. For a number that is a safe integer: a template without
    placeholders is its own description; in a
    template whose first [{TYPE}] and first [{DAY_NUM}] stand, in either
    order, after texts without a brace, exactly these two are replaced by
    the type and the number, and everything after them stays, later
    placeholders included. *)
Theorem buildDescription_templates (dayNum : Z) (type : TournamentType) :
  safeInteger dayNum ->
  (forall template,
      ~ contains "{TYPE}" template -> ~ contains "{DAY_NUM}" template ->
      buildDescription dayNum type template = template)
  /\ (forall a b c, braceFree a -> braceFree b ->
        buildDescription dayNum type (a ++ "{TYPE}" ++ b ++ "{DAY_NUM}" ++ c)
        = a ++ typeLabel type ++ b ++ JsString.ofNumber dayNum ++ c)
  /\ (forall a b c, braceFree a -> braceFree b ->
        buildDescription dayNum type (a ++ "{DAY_NUM}" ++ b ++ "{TYPE}" ++ c)
        = a ++ JsString.ofNumber dayNum ++ b ++ typeLabel type ++ c).
Proof.
  intros _.
  assert (Habsent : forall pat rep s, ~ contains pat s ->
                      JsString.replace pat rep s = s).
  { intros pat rep s H. unfold JsString.replace.
    destruct (JsString.indexOf pat s) as [i|] eqn:E; [| reflexivity].
    exfalso. apply H.
    exists (JsString.take i s), (JsString.drop (i + String.length pat) s).
    now apply JsStringFacts.indexOf_some. }
  split; [| split].
  - intros template H1 H2. unfold buildDescription.
    now rewrite (Habsent _ _ _ H1), (Habsent _ _ _ H2).
  - intros a b c Ha Hb. unfold buildDescription.
    rewrite (replace_plain "{TYPE}") by apply typeLabel_plain.
    rewrite replace_plain by apply JsStringFacts.ofNumber_plain.
    rewrite (replaceFirstOccurrence_skip "{" "TYPE}" _ a) by exact Ha.
    rewrite (replaceFirstOccurrence_here "{TYPE}").
    rewrite (replaceFirstOccurrence_skip "{" "DAY_NUM}" _ a) by exact Ha.
    rewrite (replaceFirstOccurrence_skip "{" "DAY_NUM}" _ (typeLabel type))
      by apply typeLabel_braceFree.
    rewrite (replaceFirstOccurrence_skip "{" "DAY_NUM}" _ b) by exact Hb.
    now rewrite (replaceFirstOccurrence_here "{DAY_NUM}").
  - intros a b c Ha Hb. unfold buildDescription.
    rewrite (replace_plain "{TYPE}") by apply typeLabel_plain.
    rewrite replace_plain by apply JsStringFacts.ofNumber_plain.
    rewrite (replaceFirstOccurrence_skip "{" "TYPE}" _ a) by exact Ha.
    assert (Hstep : forall rep s,
               replaceFirstOccurrence "{TYPE}" rep ("{DAY_NUM}" ++ s)
               = String "{" (replaceFirstOccurrence "{TYPE}" rep ("DAY_NUM}" ++ s)))
      by reflexivity.
    rewrite Hstep.
    rewrite (replaceFirstOccurrence_skip "{" "TYPE}" _ "DAY_NUM}") by reflexivity.
    rewrite (replaceFirstOccurrence_skip "{" "TYPE}" _ b) by exact Hb.
    rewrite (replaceFirstOccurrence_here "{TYPE}").
    change (String "{" ("DAY_NUM}" ++ b ++ typeLabel type ++ c))
      with ("{DAY_NUM}" ++ b ++ typeLabel type ++ c).
    rewrite (replaceFirstOccurrence_skip "{" "DAY_NUM}" _ a) by exact Ha.
    now rewrite (replaceFirstOccurrence_here "{DAY_NUM}").
Qed.

Lemma buildDescription_templates_witness :
  buildDescription 12 Night "Round {DAY_NUM} of the {TYPE} series, {TYPE}!"
  = "Round 12 of the Night series, {TYPE}!".
Proof.
  assert (Hsafe : safeInteger 12) by (unfold safeInteger; lia).
  apply (proj2 (proj2 (buildDescription_templates 12 Night Hsafe))
           "Round " " of the " " series, {TYPE}!"); reflexivity.
Defined.

(* ================================================================== *)
(** * Further properties: submissions *)
(* ================================================================== *)

(** X5. What a call of the client does to the world: exactly one request
    when the credential passes validation and the call is no dry run,
    nothing otherwise; it never writes a file and always resolves. The
    request is a [POST] to [<server>/api/tournament] with the credential
    as bearer; its body holds these nine fields and then only
    [teams[]] entries: no field carries the leaders per team. *)
Theorem createTeamBattle_footprint (env : Environment) (params : Params)
  (w : World) :
  exists result req,
    createTeamBattle env params w
    = (Normal result,
       if validateOAuthToken (params_token params) && negb (params_dryRun params)
       then {| settingsFile := settingsFile w; stateFile := stateFile w;
               journal := journal w ++ [Fetched req] |}
       else w)
    /\ (result_ok result = true ->
        validateOAuthToken (params_token params) = true)
    /\ req_url req = params_server params ++ "/api/tournament"
    /\ req_method req = "POST"
    /\ req_headers req
       = [ ("Authorization", "Bearer " ++ params_token params);
           ("Content-Type", "application/x-www-form-urlencoded");
           ("Accept", "application/json");
           ("User-Agent", "LMAO-Teamfights-Creator/1.0") ]
    /\ firstn 9 (req_body req)
       = [ ("name", params_name params);
           ("description", params_description params);
           ("clockTime", JsString.ofNumber (params_clockTime params));
           ("clockIncrement", JsString.ofNumber (params_clockIncrement params));
           ("minutes", JsString.ofNumber (params_minutes params));
           ("rated", if params_rated params then "true" else "false");
           ("variant", params_variant params);
           ("startDate", params_startDateISO params);
           ("teamBattleByTeam", params_hostTeamId params) ]
    /\ Forall (fun kv => fst kv = "teams[]") (skipn 9 (req_body req)).
Proof.
  assert (Hteams : Forall (fun kv : string * string => fst kv = "teams[]")
                          (skipn 9 (req_body (requestOf params)))).
  { cbn. apply Forall_map, Forall_forall. reflexivity. }
  destruct (validateOAuthToken (params_token params)) eqn:Hv.
  - destruct (params_dryRun params) eqn:Hd; cbn [andb negb].
    + rewrite createTeamBattle_dryRun by assumption.
      exists (pendingResult params), (requestOf params).
      repeat split; auto.
    + destruct (createTeamBattle_real env params w Hv Hd) as [r ->].
      exists r, (requestOf params). repeat split; auto.
  - rewrite createTeamBattle_invalid by assumption. cbn [andb].
    exists invalidTokenResult, (requestOf params).
    repeat split; auto; discriminate.
Qed.

(** X6. The URL reported for a created tournament: with a response that
    is a success and a body that parses, the result is [ok:true] with a
    URL that is never empty; an id that is a non-empty string gives
    [<server>/tournament/<id>]; a body without id gives the [Location]
    header when there is a non-empty one and ["unknown"] otherwise. *)
Theorem createTeamBattle_created_url (env : Environment) (params : Params)
  (w : World) (res : Response) (data : Json) :
  validateOAuthToken (params_token params) = true ->
  params_dryRun params = false ->
  network env (journal w) (requestOf params) = Resolved res ->
  res_ok res = true ->
  res_json res = Resolved data ->
  exists url,
    createTeamBattle env params w
    = (Normal {| result_ok := true; result_url := Some url; result_error := None |},
       record (Fetched (requestOf params)) w)
    /\ url <> ""
    /\ (forall id, JsValue.id data = Some (JString id) -> id <> "" ->
          url = params_server params ++ "/tournament/" ++ id)
    /\ (JsValue.id data = None ->
        url = match res_location res with
              | Some location => if String.eqb location "" then "unknown"
                                 else location
              | None => "unknown"
              end).
Proof.
  intros Hv Hd Hnet Hok Hjson. unfold createTeamBattle. rewrite Hv, Hd.
  cbn [negb]. unfold tryCatch, bind, fetch, await, ret, requestOf in *.
  rewrite Hnet, Hok. cbn [negb]. rewrite Hjson.
  eexists. split; [reflexivity |].
  assert (Hfb : match res_location res with
                | Some location => if String.eqb location "" then "unknown"
                                   else location
                | None => "unknown"
                end <> "").
  { destruct (res_location res) as [l|]; [| discriminate].
    destruct (String.eqb_spec l ""); [discriminate | assumption]. }
  assert (Hurl : forall s, params_server params ++ "/tournament/" ++ s <> "").
  { intros s H. apply (f_equal String.length) in H.
    rewrite JsStringFacts.length_append in H. cbn in H. lia. }
  split; [| split].
  - destruct (JsValue.id data) as [v|]; [| exact Hfb].
    destruct (JsValue.truthy v); [apply Hurl | exact Hfb].
  - intros id Hid Hne. rewrite Hid. cbn.
    apply String.eqb_neq in Hne. now rewrite Hne.
  - intros Hid. now rewrite Hid.
Qed.

Lemma createTeamBattle_created_url_witness :
  fst (createTeamBattle acceptingEnv firstParams freshWorld)
  = Normal {| result_ok := true;
              result_url := Some "https://lichess.org/tournament/AbCd1234";
              result_error := None |}.
Proof.
  destruct (createTeamBattle_created_url acceptingEnv firstParams freshWorld
              created (JObject [("id", JString "AbCd1234")])
              eq_refl eq_refl eq_refl eq_refl eq_refl)
    as (url & -> & _ & Hid & _).
  rewrite (Hid "AbCd1234" eq_refl); [reflexivity | discriminate].
Defined.

Section RealLoop.

Variable env : Environment.
Variable oauthToken : string.
Variable settings : TournamentSettings.

Lemma submitLoop_paced (remaining : list Tournament) :
  validateOAuthToken oauthToken = true ->
  forall i successCount failureCount w,
  0 <= i ->
  exists counts w',
    submitLoop env oauthToken settings false i remaining
               successCount failureCount w
    = (Normal counts, w')
    /\ sameFiles w w'
    /\ journal w'
       = (journal w
          ++ paced (negb (0 <? i))
               (map (fun tournament =>
                       requestOf (submissionParams oauthToken settings false
                                                   tournament))
                    remaining))%list.
Proof.
  intros Hv.
  induction remaining as [|tournament rest IH]; intros i s f w Hi.
  - exists (s, f), w. cbn. rewrite app_nil_r. auto using sameFiles_refl.
  - cbn [submitLoop map paced]. unfold bind at 1.
    set (w0 := snd ((if 0 <? i then sleep 10000 else ret tt) w)).
    assert (Hw0 : (if 0 <? i then sleep 10000 else ret tt) w = (Normal tt, w0))
      by (unfold w0; destruct (0 <? i); reflexivity).
    assert (Hj0 : journal w0
                  = (journal w ++ (if negb (0 <? i) then [] else [Slept 10000]))%list
                  /\ sameFiles w w0).
    { unfold w0. destruct (0 <? i); cbn; [| rewrite app_nil_r];
        (split; [reflexivity | now split]). }
    rewrite Hw0. clearbody w0. destruct Hj0 as [Hj0 Hf0].
    unfold bind at 1.
    destruct (createTeamBattle_real env
                (submissionParams oauthToken settings false tournament) w0
                Hv eq_refl) as [result ->].
    set (w1 := record _ w0).
    assert (Hnext : 0 <= i + 1) by lia.
    assert (Hpos : negb (0 <? i + 1) = false)
      by (apply negb_false_iff, Z.ltb_lt; lia).
    destruct (result_ok result).
    + destruct (IH (i + 1) (s + 1) f w1 Hnext) as (counts & w' & -> & Hf & Hj).
      exists counts, w'. split; [reflexivity |]. split.
      * destruct Hf0, Hf. split; etransitivity; eauto.
      * rewrite Hj, Hpos. unfold w1. cbn [record journal]. rewrite Hj0.
        now rewrite <- !app_assoc.
    + destruct (IH (i + 1) s (f + 1) w1 Hnext) as (counts & w' & -> & Hf & Hj).
      exists counts, w'. split; [reflexivity |]. split.
      * destruct Hf0, Hf. split; etransitivity; eauto.
      * rewrite Hj, Hpos. unfold w1. cbn [record journal]. rewrite Hj0.
        now rewrite <- !app_assoc.
Qed.

End RealLoop.

Lemma paced_fetches (first : bool) (requests : list Request) :
  filter isFetch (paced first requests) = map Fetched requests.
Proof.
  revert first; induction requests as [|req rest IH]; intros first;
    [reflexivity |].
  cbn [paced]. rewrite filter_app. cbn [filter isFetch].
  rewrite IH. now destruct first.
Qed.

(** X7. A real run (valid credential, no dry run) sends one request for
    every tournament of the schedule, in the order of the schedule and
    whatever the server answers to the earlier ones, with a pause of ten
    seconds before each request but the first; each request goes to
    [https://lichess.org/api/tournament] and carries the name and the
    start date of its tournament; the loop touches no file. *)
Theorem submissions_are_paced (env : Environment) (oauthToken : string)
  (settings : TournamentSettings) (tournaments : list Tournament) (w : World) :
  validateOAuthToken oauthToken = true ->
  exists counts w' requests,
    submitLoop env oauthToken settings false 0 tournaments 0 0 w
    = (Normal counts, w')
    /\ sameFiles w w'
    /\ journal w' = (journal w ++ paced true requests)%list
    /\ filter isFetch (paced true requests) = map Fetched requests
    /\ map req_url requests
       = map (fun _ => "https://lichess.org/api/tournament") tournaments
    /\ map (fun req => field "name" (req_body req)) requests
       = map (fun tournament => Some (tournament_name tournament)) tournaments
    /\ map (fun req => field "startDate" (req_body req)) requests
       = map (fun tournament => Some (tournament_startDateISO tournament))
             tournaments.
Proof.
  intros Hv.
  destruct (submitLoop_paced env oauthToken settings tournaments Hv 0 0 0 w)
    as (counts & w' & Hloop & Hf & Hj); [lia |].
  exists counts, w'. eexists. split; [exact Hloop |].
  split; [exact Hf |]. split; [exact Hj |].
  split; [apply paced_fetches |].
  rewrite !map_map. repeat split.
Qed.

(** With the server that refuses after ten tournaments all fourteen
    requests still go out. *)
Lemma submissions_are_paced_witness :
  List.length
    (filter isFetch
       (journal (snd (submitLoop refusingEnv goodToken sampleSettings false 0
                                 sampleTournaments 0 0 freshWorld))))
  = 14%nat.
Proof.
  destruct (submissions_are_paced refusingEnv goodToken sampleSettings
              sampleTournaments freshWorld eq_refl)
    as (counts & w' & requests & Hloop & _ & Hj & Hfetch & Hurl & _).
  rewrite Hloop. cbn [snd]. rewrite Hj. cbn [journal freshWorld app].
  rewrite Hfetch, length_map, <- (length_map req_url), Hurl.
  reflexivity.
Defined.

(* ================================================================== *)
(** * Further properties: the run and the two files *)
(* ================================================================== *)

Lemma loopEvents_write_nothing (events : list Event) :
  Forall loopEvent events -> filter isWrite events = [].
Proof.
  induction 1 as [|e rest [_ He] _ IH]; [reflexivity |].
  cbn [filter]. now rewrite He.
Qed.

Lemma currentUTCDate_not_empty (t : Z) : currentUTCDate t <> "".
Proof.
  intros H. apply (f_equal String.length) in H. unfold currentUTCDate in H.
  rewrite !JsStringFacts.length_append in H. cbn in H. lia.
Qed.

Lemma validateOAuthToken_not_empty (token : string) :
  validateOAuthToken token = true -> token <> "".
Proof. now intros H ->. Qed.

Section RunOutcomes.

Variable env : Environment.

(** A run with a success writes both files. *)
Lemma run_wrote (w : World) (token : string) (settings : TournamentSettings)
  (tournaments : list Tournament) (successCount failureCount : Z) (w1 : World) :
  initialized env w token settings -> validTime (clock env) -> guardOpen env w ->
  buildTournaments (now env) (lastTournamentDayNum settings + 1) settings
  = Normal tournaments ->
  submitLoop env token settings (dryRun env) 0 tournaments 0 0 w
  = (Normal (successCount, failureCount), w1) ->
  0 < successCount ->
  run env w
  = ((if 0 <? failureCount then 1 else 0),
     {| settingsFile :=
          Some (withCounter settings (lastTournamentDayNum settings + 7));
        stateFile := Some {| lastCreationDate := currentUTCDate (clock env) |};
        journal := journal w1 ++
          [ WroteSettings
              (withCounter settings (lastTournamentDayNum settings + 7));
            WroteState {| lastCreationDate := currentUTCDate (clock env) |} ] |}).
Proof.
  intros Hinit Hclock Hguard Hb Hloop Hs.
  rewrite (run_submitted env w token settings tournaments _ _ w1
             Hinit Hclock Hguard Hb Hloop).
  rewrite (updateState_some settings _ tournaments successCount
             (lastTournamentDayNum settings + 1 + 6) w1 Hs
             (Math_max_schedule _ _ _ _ Hb)).
  cbn [snd]. unfold setLastTournamentDayNum, withCounter.
  now replace (lastTournamentDayNum settings + 1 + 6)
    with (lastTournamentDayNum settings + 7) by lia.
Qed.

(** A run whose schedule cannot be built aborts. *)
Lemma run_schedule_failed (w : World) (token : string)
  (settings : TournamentSettings) (error : string) :
  initialized env w token settings -> validTime (clock env) -> guardOpen env w ->
  buildTournaments (now env) (lastTournamentDayNum settings + 1) settings
  = Thrown error ->
  run env w = (1, w).
Proof.
  intros Hinit Hclock Hguard Hb. unfold run.
  rewrite (main_guard env w token settings Hinit Hclock).
  apply String.eqb_neq in Hguard. rewrite Hguard.
  unfold tryCatch. unfold bind at 1. now rewrite Hb.
Qed.

(** What a run does to the files and to the journal. *)
Lemma run_effects (w : World) :
  (sameFiles w (snd (run env w))
   /\ filter isWrite (journal (snd (run env w))) = filter isWrite (journal w))
  \/ exists token settings,
       initialized env w token settings /\ validTime (clock env)
       /\ guardOpen env w
       /\ settingsFile (snd (run env w))
          = Some (withCounter settings (lastTournamentDayNum settings + 7))
       /\ stateFile (snd (run env w))
          = Some {| lastCreationDate := currentUTCDate (clock env) |}
       /\ filter isWrite (journal (snd (run env w)))
          = (filter isWrite (journal w)
             ++ [ WroteSettings
                    (withCounter settings (lastTournamentDayNum settings + 7));
                  WroteState
                    {| lastCreationDate := currentUTCDate (clock env) |} ])%list.
Proof.
  destruct (run_cases env w)
    as [-> | [-> | (token & settings & tournaments & s & f & w1 & Hinit
                    & Hclock & Hguard & Hb & Hloop & Hrun)]];
    [left; split; [apply sameFiles_refl | reflexivity] ..|].
  destruct (submitLoop_total env token settings (dryRun env) tournaments
              0 0 0 w)
    as (s' & f' & w1' & events & Hloop' & _ & _ & _ & Hfiles & Hj & Hev).
  rewrite Hloop in Hloop'. injection Hloop' as <- <- <-.
  apply loopEvents_write_nothing in Hev.
  destruct (Z.ltb_spec 0 s) as [Hs | Hs].
  - right. exists token, settings.
    rewrite (run_wrote w token settings tournaments s f w1
               Hinit Hclock Hguard Hb Hloop Hs).
    cbn [snd settingsFile stateFile journal].
    repeat (split; [assumption || reflexivity |]).
    rewrite Hj, !filter_app, Hev, app_nil_r. reflexivity.
  - left. rewrite Hrun, updateState_none by exact Hs. cbn [snd].
    split; [exact Hfiles |].
    now rewrite Hj, filter_app, Hev, app_nil_r.
Qed.

End RunOutcomes.



(** X9. Once a run has changed the state file, every later run on the
    same UTC day is skipped: it ends with exit code 0 and does nothing,
    whatever its network and its mode are, also when the first run ended
    with exit code 1 because some submissions failed. *)
Theorem rerun_same_day_is_skipped (env env' : Environment) (w : World)
  (token' : string) :
  stateFile (snd (run env w)) <> stateFile w ->
  OAUTH_TOKEN env' = Some token' -> token' <> "" ->
  validTime (clock env') ->
  currentUTCDate (clock env') = currentUTCDate (clock env) ->
  run env' (snd (run env w)) = (0, snd (run env w)).
Proof.
  intros Hchanged Htoken Hne Hclock Hsame.
  destruct (run_effects env w)
    as [[[_ Hf] _] | (token & settings & _ & _ & _ & H1 & H2 & _)];
    [now elim Hchanged |].
  apply (run_skipped env' _ token'
           (withCounter settings (lastTournamentDayNum settings + 7)));
    [repeat split; assumption | exact Hclock |].
  unfold stateOf. rewrite H2. cbn [lastCreationDate]. now symmetry.
Qed.

(** The run against the server that refuses after ten tournaments ends
    with exit code 1; a second run that day, against a server that
    accepts everything, is skipped. *)
Lemma rerun_same_day_is_skipped_witness :
  fst (run refusingEnv freshWorld) = 1
  /\ run acceptingEnv (snd (run refusingEnv freshWorld))
     = (0, snd (run refusingEnv freshWorld)).
Proof.
  split; [vm_compute; reflexivity |].
  apply (rerun_same_day_is_skipped refusingEnv acceptingEnv freshWorld goodToken).
  - vm_compute. discriminate.
  - reflexivity.
  - discriminate.
  - unfold validTime. simpl. unfold sampleClock, JsDate.maxTime. lia.
  - reflexivity.
Defined.

Section Accepted.

Variable env : Environment.

(** A real run against a server that creates every tournament. *)
Lemma run_accepted (w : World) (token : string) (settings : TournamentSettings) :
  initialized env w token settings ->
  validateOAuthToken token = true -> dryRun env = false ->
  serverAccepts env ->
  validTime (clock env) ->
  clock env + 7 * JsDate.msPerDay <= JsDate.maxTime ->
  validHours settings -> guardOpen env w ->
  fst (run env w) = 0
  /\ settingsFile (snd (run env w))
     = Some (withCounter settings (lastTournamentDayNum settings + 7))
  /\ stateFile (snd (run env w))
     = Some {| lastCreationDate := currentUTCDate (clock env) |}.
Proof.
  intros Hinit Hv Hd Hnet Hclock Hweek Hh Hguard.
  destruct (buildTournaments_total (clock env)
              (lastTournamentDayNum settings + 1) settings Hclock Hweek Hh)
    as [tournaments Hb]. fold (now env) in Hb.
  destruct (submitLoop_total env token settings (dryRun env) tournaments
              0 0 0 w) as (s & f & w1 & events & Hloop & _).
  assert (Hcounts : (s, f) = (0 + Z.of_nat (List.length tournaments), 0)).
  { apply (submitLoop_counts env token settings (dryRun env) true tournaments)
      with (i := 0) (w := w) (w' := w1); [| exact Hloop].
    intros tournament w0 result w0' Hc.
    apply (createTeamBattle_accepted env
             (submissionParams token settings (dryRun env) tournament)
             w0 result w0' Hnet); [exact Hv | exact Hd | exact Hc]. }
  assert (Hlen : List.length tournaments = 14%nat)
    by (rewrite <- (length_map slot), (buildTournaments_slots _ _ _ _ Hb);
        reflexivity).
  rewrite Hlen in Hcounts. injection Hcounts as -> ->.
  rewrite (run_wrote env w token settings tournaments _ _ w1
             Hinit Hclock Hguard Hb Hloop) by reflexivity.
  cbn. auto.
Qed.

End Accepted.

(** X10. Runs on different days number on. After two real runs on
    different UTC days, each against a server that creates every
    tournament, both runs have ended with exit code 0, the counter of the
    settings is fourteen higher than at the start, every other field of
    the settings is as it was, and the state holds the date of the second
    run. *)
Theorem runs_number_on (env env' : Environment) (w : World)
  (token token' : string) (settings : TournamentSettings) :
  initialized env w token settings -> OAUTH_TOKEN env' = Some token' ->
  validateOAuthToken token = true -> validateOAuthToken token' = true ->
  dryRun env = false -> dryRun env' = false ->
  serverAccepts env -> serverAccepts env' ->
  validTime (clock env) -> validTime (clock env') ->
  clock env + 7 * JsDate.msPerDay <= JsDate.maxTime ->
  clock env' + 7 * JsDate.msPerDay <= JsDate.maxTime ->
  validHours settings ->
  guardOpen env w -> currentUTCDate (clock env') <> currentUTCDate (clock env) ->
  safeInteger (lastTournamentDayNum settings) ->
  safeInteger (lastTournamentDayNum settings + 14) ->
  let w1 := snd (run env w) in
  let w2 := snd (run env' w1) in
  fst (run env w) = 0 /\ fst (run env' w1) = 0
  /\ settingsFile w2
     = Some {| hostTeamId := hostTeamId settings;
               description := description settings;
               lastTournamentDayNum := lastTournamentDayNum settings + 14;
               leadersPerTeam := leadersPerTeam settings;
               dayStartHour := dayStartHour settings;
               nightStartHour := nightStartHour settings;
               tournamentDurationMinutes := tournamentDurationMinutes settings;
               clockTimeMinutes := clockTimeMinutes settings;
               clockIncrementSeconds := clockIncrementSeconds settings;
               rated := rated settings;
               variant := variant settings |}
  /\ stateFile w2 = Some {| lastCreationDate := currentUTCDate (clock env') |}.
Proof.
  intros Hinit Htoken' Hv Hv' Hd Hd' Hnet Hnet' Hclock Hclock' Hweek Hweek' Hh
         Hguard Hdiff _ _ w1 w2.
  destruct (run_accepted env w token settings Hinit Hv Hd Hnet Hclock Hweek Hh
              Hguard) as (Hcode & Hsettings & Hstate).
  fold w1 in Hsettings, Hstate.
  destruct (run_accepted env' w1 token'
              (withCounter settings (lastTournamentDayNum settings + 7)))
    as (Hcode' & Hsettings' & Hstate'); try assumption.
  - repeat split; [exact Htoken' | | exact Hsettings].
    now apply validateOAuthToken_not_empty.
  - unfold guardOpen, stateOf. rewrite Hstate. cbn [lastCreationDate].
    intros E. now apply Hdiff.
  - fold w2 in Hsettings', Hstate'.
    split; [exact Hcode |]. split; [exact Hcode' |]. split; [| exact Hstate'].
    rewrite Hsettings'. unfold withCounter. cbn. do 2 f_equal. lia.
Qed.

Lemma runs_number_on_witness :
  fst (run nextDayEnv (snd (run acceptingEnv freshWorld))) = 0
  /\ option_map lastTournamentDayNum
       (settingsFile (snd (run nextDayEnv (snd (run acceptingEnv freshWorld)))))
     = Some 18
  /\ stateFile (snd (run nextDayEnv (snd (run acceptingEnv freshWorld))))
     = Some {| lastCreationDate := "2024-02-28" |}.
Proof.
  assert (Hnet : serverAccepts acceptingEnv /\ serverAccepts nextDayEnv).
  { split; intros history req;
      exists created, (JObject [("id", JString "AbCd1234")]); repeat split. }
  destruct Hnet as [Hnet Hnet'].
  assert (Hinit : initialized acceptingEnv freshWorld goodToken sampleSettings)
    by (repeat split; discriminate).
  assert (Hclock : validTime (clock acceptingEnv))
    by (unfold validTime; simpl; unfold sampleClock, JsDate.maxTime; lia).
  assert (Hclock' : validTime (clock nextDayEnv))
    by (unfold validTime; simpl; unfold sampleClock, JsDate.maxTime; lia).
  assert (Hweek : clock acceptingEnv + 7 * JsDate.msPerDay <= JsDate.maxTime)
    by (simpl; unfold sampleClock, JsDate.msPerDay, JsDate.maxTime; lia).
  assert (Hweek' : clock nextDayEnv + 7 * JsDate.msPerDay <= JsDate.maxTime)
    by (simpl; unfold sampleClock, JsDate.msPerDay, JsDate.maxTime; lia).
  assert (Hh : validHours sampleSettings) by (unfold validHours; simpl; lia).
  assert (Hguard : guardOpen acceptingEnv freshWorld)
    by (unfold guardOpen; vm_compute; discriminate).
  assert (Hdiff : currentUTCDate (clock nextDayEnv)
                  <> currentUTCDate (clock acceptingEnv))
    by (vm_compute; discriminate).
  assert (Hsafe : safeInteger (lastTournamentDayNum sampleSettings))
    by (unfold safeInteger; simpl; lia).
  assert (Hsafe' : safeInteger (lastTournamentDayNum sampleSettings + 14))
    by (unfold safeInteger; simpl; lia).
  destruct (runs_number_on acceptingEnv nextDayEnv freshWorld goodToken goodToken
              sampleSettings Hinit eq_refl eq_refl eq_refl eq_refl eq_refl
              Hnet Hnet' Hclock Hclock' Hweek Hweek' Hh Hguard Hdiff Hsafe Hsafe')
    as (_ & Hcode & Hsettings & Hstate).
  cbv zeta in Hsettings, Hstate.
  split; [exact Hcode |]. split.
  - rewrite Hsettings. reflexivity.
  - rewrite Hstate. vm_compute. reflexivity.
Defined.

Section Pauses.

Variable env : Environment.
Variable oauthToken : string.
Variable settings : TournamentSettings.
Variable dry : bool.

Lemma submitLoop_pauses (remaining : list Tournament) :
  forall i successCount failureCount w,
  0 <= i ->
  exists counts w' events,
    submitLoop env oauthToken settings dry i remaining
               successCount failureCount w
    = (Normal counts, w')
    /\ journal w' = (journal w ++ events)%list
    /\ filter isPause events
       = repeat (Slept 10000) (pausesFrom i (List.length remaining)).
Proof.
  induction remaining as [|tournament rest IH]; intros i s f w Hi.
  - exists (s, f), w, []. cbn [submitLoop ret]. rewrite app_nil_r.
    repeat split. unfold pausesFrom. now destruct (0 <? i).
  - cbn [submitLoop]. unfold bind at 1.
    set (w0 := snd ((if 0 <? i then sleep 10000 else ret tt) w)).
    assert (Hw0 : (if 0 <? i then sleep 10000 else ret tt) w = (Normal tt, w0))
      by (unfold w0; destruct (0 <? i); reflexivity).
    assert (Hj0 : journal w0
                  = (journal w ++ (if 0 <? i then [Slept 10000] else []))%list).
    { unfold w0. destruct (0 <? i); cbn; [| rewrite app_nil_r]; reflexivity. }
    rewrite Hw0. clearbody w0. unfold bind at 1.
    destruct (createTeamBattle_total env
                (submissionParams oauthToken settings dry tournament) w0)
      as (result & w1 & Hc & Hw1).
    rewrite Hc.
    assert (Hj1 : exists ev1, journal w1 = (journal w0 ++ ev1)%list
                              /\ filter isPause ev1 = []).
    { destruct Hw1 as [-> | ->].
      - exists []. now rewrite app_nil_r.
      - eexists [_]. split; reflexivity. }
    destruct Hj1 as (ev1 & Hj1 & Hp1).
    assert (Hnext : 0 <= i + 1) by lia.
    assert (Hpos : pausesFrom (i + 1) (List.length rest) = List.length rest)
      by (unfold pausesFrom; now rewrite (proj2 (Z.ltb_lt 0 (i + 1)))
            by lia).
    assert (Hhere : (filter isPause (if 0 <? i then [Slept 10000] else [])
                     ++ repeat (Slept 10000) (List.length rest))%list
                    = repeat (Slept 10000)
                             (pausesFrom i (List.length (tournament :: rest))))
      by (unfold pausesFrom; now destruct (0 <? i)).
    destruct (result_ok result).
    + destruct (IH (i + 1) (s + 1) f w1 Hnext) as (counts & w' & evs & -> & Hj & Hp).
      exists counts, w', ((if 0 <? i then [Slept 10000] else []) ++ ev1 ++ evs)%list.
      split; [reflexivity |]. split.
      * rewrite Hj, Hj1, Hj0. now rewrite <- !app_assoc.
      * rewrite !filter_app, Hp1, Hp, Hpos. exact Hhere.
    + destruct (IH (i + 1) s (f + 1) w1 Hnext) as (counts & w' & evs & -> & Hj & Hp).
      exists counts, w', ((if 0 <? i then [Slept 10000] else []) ++ ev1 ++ evs)%list.
      split; [reflexivity |]. split.
      * rewrite Hj, Hj1, Hj0. now rewrite <- !app_assoc.
      * rewrite !filter_app, Hp1, Hp, Hpos. exact Hhere.
Qed.

End Pauses.

Lemma run_pauses (env : Environment) (w : World) (token : string)
  (settings : TournamentSettings) (tournaments : list Tournament) :
  initialized env w token settings -> validTime (clock env) -> guardOpen env w ->
  buildTournaments (now env) (lastTournamentDayNum settings + 1) settings
  = Normal tournaments ->
  exists events,
    journal (snd (run env w)) = (journal w ++ events)%list
    /\ filter isPause events = repeat (Slept 10000) 13.
Proof.
  intros Hinit Hclock Hguard Hb.
  destruct (submitLoop_pauses env token settings (dryRun env) tournaments
              0 0 0 w) as ([s f] & w1 & events & Hloop & Hj & Hp); [lia |].
  assert (Hlen : List.length tournaments = 14%nat)
    by (rewrite <- (length_map slot), (buildTournaments_slots _ _ _ _ Hb);
        reflexivity).
  rewrite Hlen in Hp. change (pausesFrom 0 14) with 13%nat in Hp.
  destruct (Z.ltb_spec 0 s) as [Hs | Hs].
  - rewrite (run_wrote env w token settings tournaments s f w1
               Hinit Hclock Hguard Hb Hloop Hs).
    cbn [snd journal]. rewrite Hj, <- app_assoc. eexists. split; [reflexivity |].
    rewrite filter_app, Hp. cbn [filter isPause]. now rewrite app_nil_r.
  - rewrite (run_submitted env w token settings tournaments s f w1
               Hinit Hclock Hguard Hb Hloop).
    rewrite updateState_none by exact Hs. cbn [snd]. eauto.
Qed.

(** X11. Every run that gets to the submissions pauses thirteen times,
    ten seconds each, whatever the credential, the mode and the network
    are: a dry run and a run whose every submission is refused wait as
    long as a real one. *)
Theorem every_run_pauses_thirteen_times (env : Environment) (w : World)
  (token : string) (settings : TournamentSettings)
  (tournaments : list Tournament) :
  initialized env w token settings -> validTime (clock env) -> guardOpen env w ->
  buildTournaments (now env) (lastTournamentDayNum settings + 1) settings
  = Normal tournaments ->
  exists events,
    journal (snd (run env w)) = (journal w ++ events)%list
    /\ filter isPause events
       = [ Slept 10000; Slept 10000; Slept 10000; Slept 10000; Slept 10000;
           Slept 10000; Slept 10000; Slept 10000; Slept 10000; Slept 10000;
           Slept 10000; Slept 10000; Slept 10000 ].
Proof.
  intros Hinit Hclock Hguard Hb.
  destruct (run_pauses env w token settings tournaments Hinit Hclock Hguard Hb)
    as (events & Hj & Hp).
  exists events. split; [exact Hj |]. rewrite Hp. reflexivity.
Qed.

Lemma every_run_pauses_thirteen_times_witness :
  List.length (filter isPause (journal (snd (run dryRunEnv freshWorld))))
  = 13%nat.
Proof.
  assert (Hb : buildTournaments (now dryRunEnv)
                 (lastTournamentDayNum sampleSettings + 1) sampleSettings
               = Normal sampleTournaments) by (vm_compute; reflexivity).
  destruct (every_run_pauses_thirteen_times dryRunEnv freshWorld goodToken
              sampleSettings sampleTournaments) as (events & Hj & Hp).
  - repeat split. discriminate.
  - unfold validTime. simpl. unfold sampleClock, JsDate.maxTime. lia.
  - unfold guardOpen. vm_compute. discriminate.
  - exact Hb.
  - rewrite Hj. cbn [journal freshWorld app]. rewrite Hp. reflexivity.
Defined.

(** X12. Without a state file no run is skipped: the run does not end
    with exit code 0 and the world as it was. It aborts with another exit
    code or it goes through the submissions. *)
Theorem first_run_is_not_skipped (env : Environment) (w : World) :
  stateFile w = None -> run env w <> (0, w).
Proof.
  intros Hstate.
  destruct (OAUTH_TOKEN env) as [token|] eqn:Htoken;
    [| unfold run; rewrite main_without_token; [discriminate | auto]].
  destruct (String.eqb_spec token "") as [-> | Hne];
    [unfold run; rewrite main_without_token; [discriminate | auto] |].
  destruct (settingsFile w) as [settings|] eqn:Hsettings;
    [| unfold run; rewrite main_without_settings; [discriminate | auto]].
  assert (Hinit : initialized env w token settings) by (repeat split; auto).
  assert (Hdec : validTime (clock env) \/ ~ validTime (clock env))
    by (unfold validTime; lia).
  destruct Hdec as [Hclock | Hclock];
    [| rewrite (run_invalid_clock env w token settings Hinit Hclock);
       discriminate].
  assert (Hguard : guardOpen env w).
  { unfold guardOpen, stateOf. rewrite Hstate. cbn [lastCreationDate].
    intros E. now apply (currentUTCDate_not_empty (clock env)). }
  destruct (buildTournaments (now env) (lastTournamentDayNum settings + 1)
                             settings) as [tournaments | e | code] eqn:Hb.
  - destruct (run_pauses env w token settings tournaments Hinit Hclock Hguard Hb)
      as (events & Hj & Hp).
    intros E. rewrite E in Hj. cbn [snd] in Hj.
    rewrite <- (app_nil_r (journal w)) in Hj at 1.
    apply app_inv_head in Hj. subst events. discriminate Hp.
  - rewrite (run_schedule_failed env w token settings e Hinit Hclock Hguard Hb).
    discriminate.
  - now apply scheduleLoop_not_exited in Hb.
Qed.

Lemma first_run_is_not_skipped_witness :
  fst (run dryRunEnv freshWorld) = 0
  /\ run dryRunEnv freshWorld <> (0, freshWorld).
Proof.
  split; [vm_compute; reflexivity |].
  apply (first_run_is_not_skipped dryRunEnv freshWorld). reflexivity.
Defined.

Lemma createTournamentDate_cases (year month day hour minute : number) :
  createTournamentDate year month day hour minute
  = Thrown "RangeError: Invalid time value"
  \/ exists iso, createTournamentDate year month day hour minute = Normal iso.
Proof.
  unfold createTournamentDate, JsDate.toISOString.
  destruct (JsDate.newDate _); eauto.
Qed.

Lemma scheduleLoop_out_of_range (t nextDayNum : Z) (settings : TournamentSettings)
  (offsets : list Z) :
  (exists dayOffset, In dayOffset offsets
                     /\ JsDate.maxTime < t + dayOffset * JsDate.msPerDay) ->
  forall acc,
    scheduleLoop (Some t) nextDayNum settings offsets acc
    = Thrown "RangeError: Invalid time value".
Proof.
  induction offsets as [|dayOffset rest IH]; intros (k & Hin & Hk) acc;
    [destruct Hin |].
  cbn [scheduleLoop]. unfold JsDate.copy.
  rewrite JsDateFacts.setUTCDate_add.
  destruct Hin as [-> | Hin].
  - unfold JsDate.TimeClip.
    replace (Z.abs (t + k * JsDate.msPerDay) <=? JsDate.maxTime) with false
      by (symmetry; apply Z.leb_gt; lia).
    reflexivity.
  - set (target := JsDate.TimeClip _).
    destruct (createTournamentDate_cases (JsDate.getUTCFullYear target)
                (num_add (JsDate.getUTCMonth target) (Some 1))
                (JsDate.getUTCDate target) (Some (dayStartHour settings)) (Some 0))
      as [-> | [dayStart ->]]; [reflexivity |].
    cbn [andThen].
    destruct (createTournamentDate_cases (JsDate.getUTCFullYear target)
                (num_add (JsDate.getUTCMonth target) (Some 1))
                (JsDate.getUTCDate target) (Some (nightStartHour settings)) (Some 0))
      as [-> | [nightStart ->]]; [reflexivity |].
    cbn [andThen]. apply IH. eauto.
Qed.

(** X13. A clock within the last six days that a [Date] holds: the
    schedule cannot be built, since a start date of the week is no valid
    time and its [toISOString] raises a [RangeError]; the run aborts with
    exit code 1 before any submission, pause or write. *)
Theorem schedule_out_of_range_aborts (env : Environment) (w : World)
  (token : string) (settings : TournamentSettings) :
  initialized env w token settings -> validTime (clock env) -> guardOpen env w ->
  JsDate.maxTime < clock env + 6 * JsDate.msPerDay ->
  buildTournaments (now env) (lastTournamentDayNum settings + 1) settings
  = Thrown "RangeError: Invalid time value"
  /\ run env w = (1, w).
Proof.
  intros Hinit Hclock Hguard Hlate.
  assert (Hb : buildTournaments (now env) (lastTournamentDayNum settings + 1)
                                settings
               = Thrown "RangeError: Invalid time value").
  { unfold buildTournaments, now, JsDate.newDate.
    rewrite JsDateFacts.TimeClip_valid by (unfold validTime in Hclock; lia).
    apply scheduleLoop_out_of_range. exists 6. split; [| exact Hlate].
    unfold dayOffsets. cbn. auto 10. }
  split; [exact Hb |].
  exact (run_schedule_failed env w token settings _ Hinit Hclock Hguard Hb).
Qed.

Lemma schedule_out_of_range_aborts_witness :
  run lastDayEnv freshWorld = (1, freshWorld).
Proof.
  apply (schedule_out_of_range_aborts lastDayEnv freshWorld goodToken
           sampleSettings).
  - repeat split. discriminate.
  - unfold validTime. simpl. unfold JsDate.maxTime. lia.
  - unfold guardOpen. vm_compute. discriminate.
  - simpl. unfold JsDate.msPerDay, JsDate.maxTime. lia.
Defined.
